(** * The HTTP/1.x response engine of pulsar ([pulsar/apps/wsgi/server.py])

    A shallow embedding of the module-level functions [chunk_encoding] and
    [keep_alive] and of the class [HttpServerResponse] ([data_received],
    [expect_continue], [start_response], [generate], [is_chunked],
    [get_headers], [send_headers], [wsgi_environ]), followed by the
    properties of the response cycle. Applications hand their body over
    through the iterable they return; the [write] callable is left out.

    Python values are modelled as follows: [str] is [string], [bytes] is
    [list byte], [None]-or-value is [option], an exception is an explicit
    outcome, and the attributes of [self] are the fields of the record
    [Self.t], threaded through every method. *)

From Stdlib Require Import String Ascii NArith ZArith Arith Bool Lia DecimalString.
From Stdlib Require Import List.
From Stdlib.Strings Require Import Byte.
From Equations Require Import Equations.
Import ListNotations.

Local Open Scope string_scope.
Local Open Scope list_scope.

Definition bytes := list byte.

(** ** The Python built-ins the module relies on *)

Module Py.

(** [s.encode('utf-8')], on the ASCII text the server formats. *)
Definition encode (s : string) : bytes := list_byte_of_string s.

(** Truth value of a [str]: the empty string is false. *)
Definition truthy (s : string) : bool :=
  match s with EmptyString => false | String _ _ => true end.

(** Truth value of [None]-or-[str] ([if c:], [if self._status:]). *)
Definition truthy_opt (o : option string) : bool :=
  match o with None => false | Some s => truthy s end.

(** Truth value of [None]-or-[bytes] ([if not self._headers_sent:]). *)
Definition truthy_bytes (o : option bytes) : bool :=
  match o with None => false | Some [] => false | Some (_ :: _) => true end.

Definition in_range (lo hi : nat) (c : ascii) : bool :=
  let n := nat_of_ascii c in (lo <=? n)%nat && (n <=? hi)%nat.

Definition lower_ascii (c : ascii) : ascii :=
  if in_range 65 90 c then ascii_of_nat (nat_of_ascii c + 32) else c.

Definition upper_ascii (c : ascii) : ascii :=
  if in_range 97 122 c then ascii_of_nat (nat_of_ascii c - 32) else c.

Fixpoint map_chars (f : ascii -> ascii) (s : string) : string :=
  match s with
  | EmptyString => EmptyString
  | String c r => String (f c) (map_chars f r)
  end.

(** [s.lower()] and [s.upper()]. *)
Definition lower : string -> string := map_chars lower_ascii.
Definition upper : string -> string := map_chars upper_ascii.

(** [s.replace(a, b)] for one-character [a] and [b]. *)
Definition replace (a b : ascii) : string -> string :=
  map_chars (fun c => if Ascii.eqb c a then b else c).

(** [s.find(c) >= 0] for a one-character [c]. *)
Fixpoint contains (c : ascii) (s : string) : bool :=
  match s with
  | EmptyString => false
  | String x r => Ascii.eqb x c || contains c r
  end.

(** [s.split(sep)] for a one-character separator: never empty. *)
Fixpoint split (sep : ascii) (s : string) : list string :=
  match s with
  | EmptyString => [EmptyString]
  | String c r =>
      if Ascii.eqb c sep then EmptyString :: split sep r
      else match split sep r with
           | [] => [String c EmptyString]
           | h :: t => String c h :: t
           end
  end.

(** [sep.join(parts)]. *)
Fixpoint join (sep : ascii) (parts : list string) : string :=
  match parts with
  | [] => EmptyString
  | [p] => p
  | p :: rest => p ++ String sep (join sep rest)
  end.

(** [s.rsplit(sep, 1)]: cut at the last separator only. *)
Definition rsplit1 (sep : ascii) (s : string) : list string :=
  match rev (split sep s) with
  | [] => [s]
  | [_] => [s]
  | last :: before => [join sep (rev before); last]
  end.

(** The characters [str.strip()] removes (ASCII range). *)
Definition is_space (c : ascii) : bool :=
  in_range 9 13 c || in_range 28 32 c.

Fixpoint lstrip (s : string) : string :=
  match s with
  | EmptyString => EmptyString
  | String c r => if is_space c then lstrip r else s
  end.

Fixpoint rstrip (s : string) : string :=
  match s with
  | EmptyString => EmptyString
  | String c r =>
      match rstrip r with
      | EmptyString => if is_space c then EmptyString else String c EmptyString
      | r' => String c r'
      end
  end.

Definition strip (s : string) : string := rstrip (lstrip s).

(** [s[:n]]. *)
Definition prefix (n : nat) (s : string) : string := substring 0 n s.

Definition digit_of (c : ascii) : option Z :=
  if in_range 48 57 c then Some (Z.of_nat (nat_of_ascii c - 48)) else None.

(** The digit part of an integer literal: digits, with single underscores
    allowed between two digits. *)
Fixpoint int_digits (s : string) (acc : Z) (after_digit : bool) : option Z :=
  match s with
  | EmptyString => if after_digit then Some acc else None
  | String c r =>
      match digit_of c with
      | Some d => int_digits r (acc * 10 + d) true
      | None =>
          if Ascii.eqb c "_" && after_digit then int_digits r acc false
          else None
      end
  end.

(** [int(s)] in base ten; [None] stands for [ValueError]. *)
Definition int (s : string) : option Z :=
  match strip s with
  | String "-" r => option_map Z.opp (int_digits r 0 false)
  | String "+" r => int_digits r 0 false
  | r => int_digits r 0 false
  end.

(** [str(n)] and ['%s' % n] for a non-negative integer. *)
Definition str_nat (n : nat) : string := NilEmpty.string_of_uint (Nat.to_uint n).

Definition hex_digit (d : N) : byte :=
  match Byte.of_N (if (d <? 10)%N then 48 + d else 55 + d)%N with
  | Some b => b
  | None => x30
  end.

(** Digits of [n], most significant first, pushed in front of [acc]. *)
Fixpoint hex_loop (fuel : nat) (n : N) (acc : bytes) : bytes :=
  let acc' := hex_digit (n mod 16) :: acc in
  match fuel with
  | O => acc'
  | S f => if (n / 16 =? 0)%N then acc' else hex_loop f (n / 16) acc'
  end.

(** ["%X" % n]: upper-case hexadecimal, no prefix; a number below
    [2 ^ (log2 n + 1)] has at most [log2 n + 1] digits. *)
Definition format_X (n : N) : bytes := hex_loop (N.to_nat (N.log2 n)) n [].

End Py.

(** ** The header container

    The class [Headers] comes from [pulsar.utils.httpurl], which is not part
    of the sources at hand; only its uses in [server.py] are. *)

Module Headers.

(** Modelled from the spec: the class [Headers] ([pulsar.utils.httpurl]) is
    missing. A HeaderSet is an ordered sequence of (name, value) pairs;
    a name may repeat; insertion order is preserved. *)
Definition t := list (string * string).

(** Modelled from the spec: name comparison is case-insensitive. *)
Definition same_name (a b : string) : bool :=
  String.eqb (Py.lower a) (Py.lower b).

Definition named (name : string) (p : string * string) : bool :=
  same_name (fst p) name.

(** Modelled from the spec: [getAll(name) -> sequence]. The default [()] of
    [get_all('connection', ())] is the empty sequence. *)
Definition get_all (h : t) (name : string) : list string :=
  map snd (filter (named name) h).

(** Modelled from the spec: [get(name) -> value|none] returns the first
    match; a missing header is simply absent. *)
Definition get (h : t) (name : string) : option string :=
  hd_error (get_all h name).

(** Modelled from the spec: [add(name, value)] appends, never overwrites. *)
Definition add_header (h : t) (name value : string) : t :=
  h ++ [(name, value)].

(** Modelled from the spec: [remove(name)]; this is [pop(name, None)], whose
    result the server ignores. *)
Definition pop (h : t) (name : string) : t :=
  filter (fun p => negb (named name p)) h.

(** Modelled from the spec: [headers[name] = value] forces the header to
    that single value (section 4.2: the outgoing header is forced to / set
    to). *)
Definition set (h : t) (name value : string) : t :=
  add_header (pop h name) name value.

(** Modelled from the spec: [update(pairs)] sets each pair in turn. *)
Definition update (h : t) (items : list (string * string)) : t :=
  fold_left (fun acc p => set acc (fst p) (snd p)) items h.


Definition crlf : string := String "013" (String "010" EmptyString).

Definition line (p : string * string) : string :=
  fst p ++ ": " ++ snd p ++ crlf.

(** Modelled from the spec: [flatten(version, status)] renders the status
    line [HTTP/<major>.<minor> <status>], then each header as
    [Name: value], each line ended by CRLF, then a blank line. *)
Definition flat (h : t) (version : nat * nat) (status : string) : bytes :=
  Py.encode ("HTTP/" ++ Py.str_nat (fst version) ++ "." ++
             Py.str_nat (snd version) ++ " " ++ status ++ crlf ++
             String.concat EmptyString (map line h) ++ crlf).

End Headers.

(** ** Module-level definitions of [server.py] *)

Definition MAX_CHUNK_SIZE : nat := Nat.pow 2 16.

Definition CRLF : bytes := [x0d; x0a].

(** [chunk_encoding(chunk)]: chunk-size in hex, CRLF, chunk-data, CRLF. *)
Definition chunk_encoding (chunk : bytes) : bytes :=
  let head := Py.format_X (N.of_nat (length chunk)) ++ CRLF in
  head ++ chunk ++ CRLF.

(** The list membership test [x in xs] on strings. *)
Definition mem (x : string) (xs : list string) : bool :=
  existsb (String.eqb x) xs.

(** [keep_alive(headers, version)]: the decision, together with the
    header set as the function leaves it (it assigns [headers['connection']]
    in two of its branches). *)
Definition keep_alive (headers : Headers.t) (version : nat * nat)
  : Headers.t * bool :=
  let conn := map Py.lower (Headers.get_all headers "connection") in
  if mem "close" conn then (headers, false)
  else if mem "upgrade" conn then
    (Headers.set headers "connection" "Upgrade", true)
  else if mem "keep-alive" conn then (headers, true)
  else if ((fst version =? 1) && (snd version =? 1))%nat then
    (Headers.set headers "connection" "keep-alive", true)
  else (headers, false).

(** Modelled from the spec: [has_empty_content] ([pulsar.utils.httpurl]) is
    missing; the statuses with a status-defined empty body are 1xx, 204 and
    304. *)
Definition has_empty_content (status : Z) : bool :=
  ((100 <=? status) && (status <? 200) || (status =? 204) || (status =? 304))%Z.

(** Exceptions that cross the methods of the class. *)
Inductive exn :=
| HttpException (msg : string)
| TypeError
| ValueError
| ProtocolError
| AttributeError
| AppError (tag : nat).

(** The [response_headers] argument of [start_response]: a Python list of
    pairs, or an object of another type. *)
Inductive header_arg :=
| HList (items : list (string * string))
| HNotAList.

(** What a WSGI application does when it is called and its result is
    iterated: it may call [start_response], yield a body fragment, or raise.
    A finite script stands for an application whose body sequence ends. *)
Inductive app_step :=
| CallStartResponse (status : string) (response_headers : header_arg)
    (exc_info : option exn)
| Yield (b : bytes)
| Raise (e : exn).

(** Modelled from the spec: the substitute error response ([WsgiResponse],
    [.wrappers], is missing). It has a status code, and calling it sets its
    status and headers through [start_response], passing the error on, and
    gives its own lazy body sequence. *)
Record WsgiResponse := {
  status_code : nat;
  response_status : string;
  response_headers : list (string * string);
  content : list app_step
}.

(** The parser ([lib.Http_Parser]) is an external collaborator: the record
    holds what it answers after the bytes received so far. *)
Record Http_Parser := {
  is_headers_complete : bool;
  is_message_complete : bool;
  get_headers : list (string * string);
  get_version : nat * nat
}.

(** The attributes of an [HttpServerResponse] instance, with the bytes
    written to its transport (oldest first) and what it asked of its
    connection. *)
Module Self.

Record t := {
  _status : option string;
  _headers_sent : option bytes;
  _request_headers : option Headers.t;
  headers : Headers.t;
  keep_alive : bool;
  parser : Http_Parser;
  address : string * nat;
  transport : list bytes;
  connection_closed : bool;
  finished : bool
}.

Definition with_status (v : option string) (s : t) : t :=
  {| _status := v; _headers_sent := _headers_sent s;
     _request_headers := _request_headers s; headers := headers s;
     keep_alive := keep_alive s; parser := parser s; address := address s;
     transport := transport s; connection_closed := connection_closed s;
     finished := finished s |}.

Definition with_headers_sent (v : option bytes) (s : t) : t :=
  {| _status := _status s; _headers_sent := v;
     _request_headers := _request_headers s; headers := headers s;
     keep_alive := keep_alive s; parser := parser s; address := address s;
     transport := transport s; connection_closed := connection_closed s;
     finished := finished s |}.

Definition with_request_headers (v : option Headers.t) (s : t) : t :=
  {| _status := _status s; _headers_sent := _headers_sent s;
     _request_headers := v; headers := headers s;
     keep_alive := keep_alive s; parser := parser s; address := address s;
     transport := transport s; connection_closed := connection_closed s;
     finished := finished s |}.

Definition with_headers (v : Headers.t) (s : t) : t :=
  {| _status := _status s; _headers_sent := _headers_sent s;
     _request_headers := _request_headers s; headers := v;
     keep_alive := keep_alive s; parser := parser s; address := address s;
     transport := transport s; connection_closed := connection_closed s;
     finished := finished s |}.

Definition with_keep_alive (v : bool) (s : t) : t :=
  {| _status := _status s; _headers_sent := _headers_sent s;
     _request_headers := _request_headers s; headers := headers s;
     keep_alive := v; parser := parser s; address := address s;
     transport := transport s; connection_closed := connection_closed s;
     finished := finished s |}.


(** [self.transport.write(data)]. *)
Definition transport_write (data : bytes) (s : t) : t :=
  {| _status := _status s; _headers_sent := _headers_sent s;
     _request_headers := _request_headers s; headers := headers s;
     keep_alive := keep_alive s; parser := parser s; address := address s;
     transport := transport s ++ [data];
     connection_closed := connection_closed s; finished := finished s |}.

(** [self.connection.close()]. *)
Definition connection_close (s : t) : t :=
  {| _status := _status s; _headers_sent := _headers_sent s;
     _request_headers := _request_headers s; headers := headers s;
     keep_alive := keep_alive s; parser := parser s; address := address s;
     transport := transport s; connection_closed := true;
     finished := finished s |}.

(** [self.finished()]. *)
Definition set_finished (s : t) : t :=
  {| _status := _status s; _headers_sent := _headers_sent s;
     _request_headers := _request_headers s; headers := headers s;
     keep_alive := keep_alive s; parser := parser s; address := address s;
     transport := transport s; connection_closed := connection_closed s;
     finished := true |}.

(** [__init__]: fresh headers, no keep-alive, nothing parsed or sent. *)
Definition init (p : Http_Parser) (peer : string * nat) : t :=
  {| _status := None; _headers_sent := None; _request_headers := None;
     headers := []; keep_alive := false; parser := p; address := peer;
     transport := []; connection_closed := false; finished := false |}.

End Self.

(** The chunk size is positive, so cutting a chunk off makes progress. *)
Lemma MAX_CHUNK_SIZE_pos : 0 < MAX_CHUNK_SIZE.
Proof.
  unfold MAX_CHUNK_SIZE. apply Nat.neq_0_lt_0, Nat.pow_nonzero. discriminate.
Qed.

Opaque MAX_CHUNK_SIZE.

(** The chunking loop of [generate]:
    [while len(b) >= MAX_CHUNK_SIZE] cuts a full chunk off the front, and
    what is left, if anything, makes a last chunk. *)
Equations? chunks (b : bytes) : list bytes by wf (length b) lt :=
chunks b with le_lt_dec MAX_CHUNK_SIZE (length b) => {
  | left _ => chunk_encoding (firstn MAX_CHUNK_SIZE b)
              :: chunks (skipn MAX_CHUNK_SIZE b);
  | right _ => match b with
               | [] => []
               | _ :: _ => [chunk_encoding b]
               end }.
Proof.
  rewrite length_skipn. pose proof MAX_CHUNK_SIZE_pos. lia.
Qed.

(** How an iteration over a body sequence ends. *)
Inductive outcome :=
| Exhausted
| Raised (e : exn).

(** ** A reader of chunked bodies

    The reference against which the chunk encoder is checked: a reader of
    the chunked transfer coding, for bodies without chunk extensions and
    without trailer fields (the server writes neither). *)

Module ChunkedReader.

Definition hex_val (b : byte) : option N :=
  let n := Byte.to_N b in
  if ((48 <=? n) && (n <=? 57))%N then Some (n - 48)%N
  else if ((65 <=? n) && (n <=? 70))%N then Some (n - 55)%N
  else if ((97 <=? n) && (n <=? 102))%N then Some (n - 87)%N
  else None.

(** The chunk size: one or more hexadecimal digits. *)
Fixpoint read_hex (acc : N) (seen : bool) (s : bytes) : option (N * bytes) :=
  match s with
  | [] => if seen then Some (acc, []) else None
  | b :: r =>
      match hex_val b with
      | Some d => read_hex (acc * 16 + d) true r
      | None => if seen then Some (acc, s) else None
      end
  end.

Definition read_crlf (s : bytes) : option bytes :=
  match s with
  | x0d :: x0a :: r => Some r
  | _ => None
  end.

(** Chunks are read until the zero-size chunk and the CRLF that closes the
    body; the result is the body and the input left unread. Each chunk
    consumes input, so [fuel] bounds the number of chunks. *)
Fixpoint read_chunks (fuel : nat) (s : bytes) : option (bytes * bytes) :=
  match fuel with
  | O => None
  | S fuel =>
      match read_hex 0 false s with
      | None => None
      | Some (size, r1) =>
          match read_crlf r1 with
          | None => None
          | Some r2 =>
              if (size =? 0)%N then
                match read_crlf r2 with
                | Some r3 => Some ([], r3)
                | None => None
                end
              else if (length r2 <? N.to_nat size)%nat then None
              else
                match read_crlf (skipn (N.to_nat size) r2) with
                | None => None
                | Some r3 =>
                    match read_chunks fuel r3 with
                    | Some (body, rest) =>
                        Some (firstn (N.to_nat size) r2 ++ body, rest)
                    | None => None
                    end
                end
          end
      end
  end.

(** Every chunk takes at least one byte of input. *)
Definition decode (s : bytes) : option (bytes * bytes) :=
  read_chunks (S (length s)) s.

End ChunkedReader.

(** ** The forwarding header, as the specification words it

    The remote address is the last hop of [X-Forwarded-For] if present and
    well-formed, else the transport peer address, the port defaulting to 80;
    a malformed header falls back to the transport-level address. *)

Module ForwardSpec.







End ForwardSpec.

(** ** The keep-alive priority table, as the specification words it

    Section 4.2: close wins; else Upgrade keeps the connection and forces
    the outgoing header to [Upgrade]; else keep-alive keeps it; else a
    protocol version of 1.1 or later keeps it and sets the outgoing header
    to [keep-alive]; otherwise it is not kept. The result is the decision
    and the value the outgoing [Connection] header is forced to, if any. *)

Module KeepAliveSpec.

Definition version_1_1_or_later (v : nat * nat) : bool :=
  ((1 <? fst v) || ((fst v =? 1) && (1 <=? snd v)))%nat.

Definition decide (tokens : list string) (version : nat * nat)
  : bool * option string :=
  if mem "close" tokens then (false, None)
  else if mem "upgrade" tokens then (true, Some "Upgrade")
  else if mem "keep-alive" tokens then (true, None)
  else if version_1_1_or_later version then (true, Some "keep-alive")
  else (false, None).

End KeepAliveSpec.

(** ** Application handlers ([pulsar/apps/wsgi/handlers.py])

    [WsgiHandler.__call__] and [Router.resolve]. A middleware is taken as a
    function of the environ; [Route.match] ([.route]) is a parameter. *)

Module Handlers.

Inductive error :=
| Http404 (msg : string).

(** [environ.get(key, default)]. *)
Fixpoint get (environ : list (string * string)) (key default : string)
  : string :=
  match environ with
  | [] => default
  | (k, v) :: rest => if String.eqb k key then v else get rest key default
  end.

(** [key in d]. *)
Definition has_key (d : list (string * string)) (key : string) : bool :=
  existsb (fun p => String.eqb (fst p) key) d.

(** What a middleware returns when it answers: a response, which may have
    a [middleware] list of its own ([None]: no such attribute). *)
Record Response := {
  body : string;
  middleware_of : option (list string)
}.

Definition Middleware := list (string * string) -> option Response.

Record WsgiHandler := {
  middleware : list Middleware;
  response_middleware : list string
}.

(** [WsgiHandler.__init__]: a missing or empty argument gives the empty
    list. *)
Definition init (middleware : option (list Middleware))
  (response_middleware : option (list string)) : WsgiHandler :=
  {| middleware := match middleware with Some l => l | None => [] end;
     response_middleware :=
       match response_middleware with Some l => l | None => [] end |}.

(** The [for middleware in self.middleware] loop: stop at the first answer
    that is not [None]. *)
Fixpoint first_response (ms : list Middleware)
  (environ : list (string * string)) : option Response :=
  match ms with
  | [] => None
  | m :: rest =>
      match m environ with
      | Some response => Some response
      | None => first_response rest environ
      end
  end.

(** [WsgiHandler.__call__(environ, start_response)]. *)
Definition call (handler : WsgiHandler) (environ : list (string * string))
  : error + Response :=
  match first_response (middleware handler) environ with
  | None => inl (Http404 (get environ "PATH_INFO" "/"))
  | Some response =>
      match middleware_of response with
      | Some l =>
          inr {| body := body response;
                 middleware_of := Some (l ++ response_middleware handler) |}
      | None => inr response
      end
  end.

Unset Elimination Schemes.

(** A [Router] with its route and its children ([self.routes]). *)
Inductive Router (Route : Type) :=
| Node (route : Route) (routes : list (Router Route)).

Set Elimination Schemes.

Arguments Node {Route} route routes.

Definition route_of {Route : Type} (r : Router Route) : Route :=
  match r with Node route _ => route end.

Definition routes_of {Route : Type} (r : Router Route) : list (Router Route) :=
  match r with Node _ routes => routes end.

(** The routers of a tree, parents first. *)
Fixpoint routers {Route : Type} (r : Router Route) : list (Router Route) :=
  match r with
  | Node _ routes =>
      r :: (fix all (l : list (Router Route)) : list (Router Route) :=
              match l with
              | [] => []
              | c :: rest => routers c ++ all rest
              end) routes
  end.

(** [Router.resolve(path)]: [None] when the route does not match; the
    first child that resolves the path when the match leaves a remainder;
    the router itself with the match otherwise. *)
Fixpoint resolve {Route : Type}
  (route_match : Route -> string -> option (list (string * string)))
  (r : Router Route) (path : string)
  : option (Router Route * list (string * string)) :=
  match r with
  | Node route routes =>
      match route_match route path with
      | None => None
      | Some m =>
          if has_key m "__remaining__" then
            (fix first (l : list (Router Route)) :=
               match l with
               | [] => None
               | handler :: rest =>
                   match resolve route_match handler path with
                   | Some view_args => Some view_args
                   | None => first rest
                   end
               end) routes
          else Some (r, m)
      end
  end.

End Handlers.

(** ** Sample values

    Values for the tables and collaborators that the class takes from
    other modules, and a few instances, for running the definitions. *)

Module Sample.

Definition HOP_HEADERS : list string :=
  ["connection"; "keep-alive"; "proxy-authenticate"; "proxy-authorization";
   "te"; "trailers"; "transfer-encoding"; "upgrade"; "server"; "date"].

Definition REDIRECT_CODES : list nat := [301; 302; 303; 307].

Definition Headers_bool (h : Headers.t) : bool :=
  match h with [] => false | _ :: _ => true end.

(** A substitute whose own body fails, a redirect, and an error page. *)
Definition handle_wsgi_error (environ : list (string * string)) (e : exn)
  : WsgiResponse :=
  match e with
  | AppError 1 =>
      {| status_code := 500; response_status := "500 Internal Server Error";
         response_headers := [("Content-Type", "text/plain")];
         content := [Raise (AppError 2)] |}
  | AppError 3 =>
      {| status_code := 302; response_status := "302 Found";
         response_headers := [("Location", "/login")];
         content := [] |}
  | _ =>
      {| status_code := 500; response_status := "500 Internal Server Error";
         response_headers := [("Content-Type", "text/plain")];
         content := [Yield (Py.encode "error")] |}
  end.

Definition parser (version : nat * nat) (request : list (string * string))
  (done : bool) : Http_Parser :=
  {| is_headers_complete := true; is_message_complete := done;
     get_headers := request; get_version := version |}.

Definition peer : string * nat := ("10.0.0.1", 5000).

Definition server_address : string * nat := ("127.0.0.1", 80).

(** An instance right after [__init__]. *)
Definition fresh (version : nat * nat) : Self.t :=
  Self.init (parser version [] true) peer.

(** An instance with a status and response headers. *)
Definition response (version : nat * nat) (status : string)
  (headers : Headers.t) : Self.t :=
  Self.with_headers headers (Self.with_status (Some status) (fresh version)).

(** An instance whose request headers are known. *)
Definition request (version : nat * nat) (headers : Headers.t) : Self.t :=
  Self.with_request_headers (Some headers) (fresh version).

End Sample.

(** ** Sample routes and middleware *)

Module Example.

(** A route given by a path: it matches that path, and any path that
    starts with it, with a remainder. *)
Definition route_match (route path : string)
  : option (list (string * string)) :=
  if String.eqb route path then Some []
  else if String.prefix route path then
    Some [("__remaining__",
           substring (String.length route)
             (String.length path - String.length route) path)]
  else None.

Definition site : Handlers.Router string :=
  Handlers.Node EmptyString
    [Handlers.Node "blog/" [Handlers.Node "blog/new" []];
     Handlers.Node "about" []].

Definition silent : Handlers.Middleware := fun _ => None.

Definition hello : Handlers.Middleware :=
  fun _ => Some {| Handlers.body := "hello";
                   Handlers.middleware_of := Some ["gzip"] |}.

Definition never : Handlers.Middleware :=
  fun _ => Some {| Handlers.body := "late"; Handlers.middleware_of := None |}.

End Example.


(** ** The class [HttpServerResponse] *)

Section HttpServerResponse.

(** [HOP_HEADERS] ([.utils]): the lower-case names of the hop-by-hop
    headers. *)
Variable HOP_HEADERS : list string.

(** [REDIRECT_CODES] ([pulsar.utils.httpurl]). *)
Variable REDIRECT_CODES : list nat.

(** The truth value of a [Headers] object ([if tosend:]), which its class
    decides. *)
Variable Headers_bool : Headers.t -> bool.

(** [handle_wsgi_error(environ, exc_info)] ([.utils]): the substitute
    response for a failure. *)
Variable handle_wsgi_error : list (string * string) -> exn -> WsgiResponse.

(** [os.environ.get("SCRIPT_NAME", "")] and [self.transport.address]. *)
Variable os_SCRIPT_NAME : string.
Variable transport_address : string * nat.



(** The properties [status], [upgrade], [chunked] and [version]. *)
Definition status (self : Self.t) : option string := Self._status self.

Definition upgrade (self : Self.t) : option string :=
  Headers.get (Self.headers self) "Upgrade".

Definition chunked (self : Self.t) : bool :=
  match Headers.get (Self.headers self) "Transfer-Encoding" with
  | Some v => String.eqb v "chunked"
  | None => false
  end.

Definition version (self : Self.t) : nat * nat :=
  get_version (Self.parser self).

(** The property [content_length]: [None] when the header is missing or
    empty, else [int(c)], which may raise [ValueError]. *)
Definition content_length (self : Self.t) : exn + option Z :=
  match Headers.get (Self.headers self) "Content-Length" with
  | Some c =>
      if Py.truthy c then
        match Py.int c with
        | Some n => inr (Some n)
        | None => inl ValueError
        end
      else inr None
  | None => inr None
  end.

(** The guards at the head of [start_response]: with [exc_info], the error
    is raised again when the headers have been sent (the [raise] statement
    is given the [exc_info] triple; whichever exception comes out of it, the
    call raises); without it, a status already set is an error. *)
Definition start_response_guard (self : Self.t) (exc_info : option exn)
  : option exn :=
  match exc_info with
  | Some e => if Py.truthy_bytes (Self._headers_sent self) then Some e else None
  | None =>
      if Py.truthy_opt (Self._status self) then
        Some (HttpException "Response headers already set!")
      else None
  end.

(** The loop of [start_response] over the header list: hop-by-hop headers
    are logged and skipped, the others are added. *)
Definition add_response_headers (self : Self.t)
  (items : list (string * string)) : Self.t :=
  fold_left
    (fun s p =>
       if mem (Py.lower (fst p)) HOP_HEADERS then s
       else Self.with_headers
              (Headers.add_header (Self.headers s) (fst p) (snd p)) s)
    items self.

(** [start_response(status, response_headers, exc_info)]: the instance as
    the call leaves it, and the exception it raised, if any. *)
Definition start_response (self : Self.t) (status : string)
  (response_headers : header_arg) (exc_info : option exn)
  : Self.t * option exn :=
  match start_response_guard self exc_info with
  | Some e => (self, Some e)
  | None =>
      let self := Self.with_status (Some status) self in
      match response_headers with
      | HNotAList => (self, Some TypeError)
      | HList items => (add_response_headers self items, None)
      end
  end.

(** The tuple comparison [version <= (1, 0)]. *)
Definition version_le_1_0 (v : nat * nat) : bool :=
  ((fst v <? 1) || ((fst v =? 1) && (snd v <=? 0)))%nat.

(** [is_chunked()]; [int(self.status[:3])] and [content_length] may raise
    [ValueError]; slicing a status that is still [None] raises
    [TypeError]. *)
Definition is_chunked (self : Self.t) : exn + bool :=
  if version_le_1_0 (version self) then inr false
  else
    match status self with
    | None => inl TypeError
    | Some status =>
        match Py.int (Py.prefix 3 status) with
        | None => inl ValueError
        | Some code =>
            if has_empty_content code then inr false
            else if chunked self then inr true
            else match content_length self with
                 | inl e => inl e
                 | inr None => inr true
                 | inr (Some _) => inr false
                 end
        end
    end.

(** [get_headers(force)]: the headers to send, finalized, when [force] is
    true or this is an upgrade; [None] otherwise. *)
Definition get_headers_to_send (self : Self.t) (force : bool)
  : Self.t * (exn + option Headers.t) :=
  if Py.truthy_opt (upgrade self) || force then
    if negb (Py.truthy_opt (Self._status self)) then
      (self, inl (HttpException "Headers not set."))
    else
      match is_chunked self with
      | inl e => (self, inl e)
      | inr use_chunked =>
          let headers :=
            if use_chunked then
              Headers.pop
                (Headers.set (Self.headers self) "Transfer-Encoding" "chunked")
                "content-length"
            else Headers.pop (Self.headers self) "Transfer-Encoding" in
          let headers :=
            if negb (Self.keep_alive self) then
              Headers.set headers "connection" "close"
            else headers in
          (Self.with_headers headers self, inr (Some headers))
      end
  else (self, inr None).

(** ['%s' % self.status]. *)
Definition status_text (self : Self.t) : string :=
  match status self with Some s => s | None => "None" end.

(** [send_headers(force)]: the header block, the first time there is one
    to send. *)
Definition send_headers (self : Self.t) (force : bool)
  : Self.t * (exn + option bytes) :=
  if negb (Py.truthy_bytes (Self._headers_sent self)) then
    match get_headers_to_send self force with
    | (self, inl e) => (self, inl e)
    | (self, inr None) => (self, inr None)
    | (self, inr (Some tosend)) =>
        if Headers_bool tosend then
          let block := Headers.flat tosend (version self) (status_text self) in
          (Self.with_headers_sent (Some block) self, inr (Some block))
        else (self, inr None)
    end
  else (self, inr None).

(** What [generate] yields for one fragment [b], after the header step:
    the chunks or the raw bytes of a non-empty fragment, [b''] for an empty
    one. *)
Definition body_yields (self : Self.t) (b : bytes) : list bytes :=
  match b with
  | [] => [[]]
  | _ :: _ => if chunked self then chunks b else [b]
  end.

Definition head_yield (head : option bytes) : list bytes :=
  match head with Some h => [h] | None => [] end.

(** The [for b in iterable] loop of [generate], together with the
    application code that runs between two fragments: the instance, the
    byte strings yielded, and how the iteration ended. An exception of
    [start_response] crosses the application. *)
Fixpoint iterate (self : Self.t) (iterable : list app_step)
  : Self.t * list bytes * outcome :=
  match iterable with
  | [] => (self, [], Exhausted)
  | Raise e :: _ => (self, [], Raised e)
  | CallStartResponse status response_headers exc_info :: rest =>
      match start_response self status response_headers exc_info with
      | (self, Some e) => (self, [], Raised e)
      | (self, None) => iterate self rest
      end
  | Yield b :: rest =>
      match send_headers self (negb (Nat.eqb (length b) 0)) with
      | (self, inl e) => (self, [], Raised e)
      | (self, inr head) =>
          let out := head_yield head ++ body_yields self b in
          match iterate self rest with
          | (self', out', end_) => (self', out ++ out', end_)
          end
      end
  end.

(** Calling the substitute response: [response(environ, start_response,
    exc_info)]. *)
Definition call_response (self : Self.t) (response : WsgiResponse)
  (exc_info : exn) : Self.t * (exn + list app_step) :=
  match start_response self (response_status response)
          (HList (response_headers response)) (Some exc_info) with
  | (self, Some e) => (self, inl e)
  | (self, None) => (self, inr (content response))
  end.

(** The end of [generate]: close the connection unless it is kept alive,
    and tell the connection that the exchange is over. The [close] method
    of the application's iterable, called first when there is one, acts on
    the application only. *)
Definition finalize (self : Self.t) : Self.t :=
  Self.set_finished
    (if negb (Self.keep_alive self) then Self.connection_close self else self).

(** One turn of the [while True] loop of [generate]. *)
Inductive turn :=
| Break (self : Self.t) (out : list bytes) (escaped : option exn)
| Continue (self : Self.t) (out : list bytes) (exc_info : exn)
    (iterable : list app_step).

Definition generate_turn (wsgi_callable : list app_step)
  (environ : list (string * string)) (self : Self.t)
  (exc_info : option exn) (iterable : list app_step) : turn :=
  let iterable :=
    match exc_info with None => wsgi_callable | Some _ => iterable end in
  match iterate self iterable with
  | (self, out, Raised e) =>
      if match exc_info with Some _ => true | None => false end
         || Py.truthy_bytes (Self._headers_sent self)
      then Break (finalize (Self.with_keep_alive false self)) out None
      else
        let response := handle_wsgi_error environ e in
        let self :=
          if negb (existsb (Nat.eqb (status_code response)) REDIRECT_CODES)
          then Self.with_keep_alive false self else self in
        match call_response self response e with
        | (self, inl e') => Break self out (Some e')
        | (self, inr iterable') => Continue self out e iterable'
        end
  | (self, out, Exhausted) =>
      match send_headers self true with
      | (self, inl e) => Break self out (Some e)
      | (self, inr head) =>
          Break (finalize self)
            (out ++ head_yield head ++
             (if chunked self then [chunk_encoding []] else []))
            None
      end
  end.

(** The [while True] loop, with a bound on its turns. *)
Fixpoint generate_loop (turns : nat) (wsgi_callable : list app_step)
  (environ : list (string * string)) (self : Self.t)
  (exc_info : option exn) (iterable : list app_step)
  : option (Self.t * list bytes * option exn) :=
  match turns with
  | O => None
  | S turns =>
      match generate_turn wsgi_callable environ self exc_info iterable with
      | Break self out escaped => Some (self, out, escaped)
      | Continue self out e iterable' =>
          match generate_loop turns wsgi_callable environ self (Some e)
                  iterable' with
          | Some (self', out', escaped) => Some (self', out ++ out', escaped)
          | None => None
          end
      end
  end.

(** [generate(environ)]: the instance at the end, the byte strings yielded
    in order, and the exception that left the generator, if any. The second
    turn runs with [exc_info] set and always breaks. *)
Definition generate (wsgi_callable : list app_step)
  (environ : list (string * string)) (self : Self.t)
  : Self.t * list bytes * option exn :=
  match generate_turn wsgi_callable environ self None [] with
  | Break self out escaped => (self, out, escaped)
  | Continue self out e iterable =>
      match generate_turn wsgi_callable environ self (Some e) iterable with
      | Break self' out' escaped => (self', out ++ out', escaped)
      | Continue self' out' _ _ => (self', out ++ out', None)
      end
  end.

(** [write(data)], the callable that [start_response] returns: the header
    block first if this call brings it out, then the data if there is any;
    the instance and the exception raised, if any. *)
Definition write (self : Self.t) (data : bytes) : Self.t * option exn :=
  match send_headers self (negb (Nat.eqb (length data) 0)) with
  | (self, inl e) => (self, Some e)
  | (self, inr head) =>
      let self :=
        match head with
        | Some h => if Py.truthy_bytes head then Self.transport_write h self
                    else self
        | None => self
        end in
      let self :=
        match data with
        | [] => self
        | _ :: _ => Self.transport_write data self
        end in
      (self, None)
  end.

(** [pulsar.SERVER_SOFTWARE] and [format_date_time(time.time())]. *)
Variable SERVER_SOFTWARE : string.
Variable date_now : string.

(** A dictionary with string keys, as an association list in insertion
    order; [d[k] = v] replaces the value of a key already there. *)
Fixpoint dict_set (d : list (string * string)) (k v : string)
  : list (string * string) :=
  match d with
  | [] => [(k, v)]
  | (k', v') :: rest =>
      if String.eqb k' k then (k, v) :: rest
      else (k', v') :: dict_set rest k v
  end.


(** The variables of the header loop of [wsgi_environ]; [forward] is a
    string once an [X-Forwarded-For] header was seen, the address pair of
    the peer before. *)
Record environ_loop := {
  loop_headers : Headers.t;
  forward : string + string * nat;
  url_scheme : string;
  server : string;
  script_name : string;
  environ : list (string * string)
}.

(** One turn of [for header, value in self._request_headers]. *)
Definition environ_step (st : environ_loop) (item : string * string)
  : environ_loop :=
  let header := Py.lower (fst item) in
  let value := snd item in
  let hs :=
    if mem header HOP_HEADERS then Headers.set (loop_headers st) header value
    else loop_headers st in
  let http_key := ("HTTP_" ++ Py.replace "-" "_" (Py.upper header))%string in
  if String.eqb header "x-forwarded-for" then
    {| loop_headers := hs; forward := inl value; url_scheme := url_scheme st;
       server := server st; script_name := script_name st;
       environ := dict_set (environ st) http_key value |}
  else if String.eqb header "x-forwarded-protocol" && String.eqb value "ssl" then
    {| loop_headers := hs; forward := forward st; url_scheme := "https";
       server := server st; script_name := script_name st;
       environ := dict_set (environ st) http_key value |}
  else if String.eqb header "x-forwarded-ssl" && String.eqb value "on" then
    {| loop_headers := hs; forward := forward st; url_scheme := "https";
       server := server st; script_name := script_name st;
       environ := dict_set (environ st) http_key value |}
  else if String.eqb header "host" then
    {| loop_headers := hs; forward := forward st; url_scheme := url_scheme st;
       server := value; script_name := script_name st;
       environ := dict_set (environ st) http_key value |}
  else if String.eqb header "script_name" then
    {| loop_headers := hs; forward := forward st; url_scheme := url_scheme st;
       server := server st; script_name := value;
       environ := dict_set (environ st) http_key value |}
  else if String.eqb header "content-type" then
    {| loop_headers := hs; forward := forward st; url_scheme := url_scheme st;
       server := server st; script_name := script_name st;
       environ := dict_set (environ st) "CONTENT_TYPE" value |}
  else if String.eqb header "content-length" then
    {| loop_headers := hs; forward := forward st; url_scheme := url_scheme st;
       server := server st; script_name := script_name st;
       environ := dict_set (environ st) "CONTENT_LENGTH" value |}
  else
    {| loop_headers := hs; forward := forward st; url_scheme := url_scheme st;
       server := server st; script_name := script_name st;
       environ := dict_set (environ st) http_key value |}.

(** The state of the loop before its first turn. The entries of [environ]
    that come straight from the parser, the configuration or the standard
    streams play no part in what follows and are left out. *)
Definition environ_start (self : Self.t) : environ_loop :=
  {| loop_headers := Self.headers self;
     forward := inr (Self.address self);
     url_scheme := "http";
     server := fst transport_address ++ ":" ++ Py.str_nat (snd transport_address);
     script_name := os_SCRIPT_NAME;
     environ := [("CONTENT_TYPE", EmptyString)] |}.

(** [remote], from which [REMOTE_ADDR] is [remote[0]] and [REMOTE_PORT] is
    [str(remote[1])]: the last hop of a forwarding string, cut at its
    colons, with port 80 when there is no colon; the peer address
    otherwise. *)
Definition remote (forward : string + string * nat) : list string :=
  match forward with
  | inl forward =>
      let forward :=
        if Py.contains "," forward then
          Py.strip (nth 1 (Py.rsplit1 "," forward) EmptyString)
        else forward in
      let remote := Py.split ":" forward in
      if (length remote <? 2)%nat then remote ++ ["80"] else remote
  | inr (host, port) => [host; Py.str_nat port]
  end.

(** [wsgi_environ()]: the instance, with the client's hop-by-hop headers,
    the keep-alive decision and the [Server] and [Date] headers, and the
    environ dictionary. Iterating request headers that are still [None]
    raises [TypeError]. The entries [SERVER_NAME], [SERVER_PORT] and
    [PATH_INFO], computed by [socket.getfqdn], [host_and_port_default] and
    [unquote], are left out. *)
Definition wsgi_environ (self : Self.t)
  : exn + Self.t * list (string * string) :=
  match Self._request_headers self with
  | None => inl TypeError
  | Some request_headers =>
      let st := fold_left environ_step request_headers (environ_start self) in
      let env := dict_set (environ st) "wsgi.url_scheme" (url_scheme st) in
      let remote := remote (forward st) in
      let env := dict_set env "REMOTE_ADDR" (nth 0 remote EmptyString) in
      let env := dict_set env "REMOTE_PORT" (nth 1 remote EmptyString) in
      let env := dict_set env "SCRIPT_NAME" (script_name st) in
      let decision := keep_alive (loop_headers st) (version self) in
      let self := Self.with_keep_alive (snd decision)
                    (Self.with_headers (fst decision) self) in
      let self :=
        Self.with_headers
          (Headers.update (Self.headers self)
             [("Server", SERVER_SOFTWARE); ("Date", date_now)]) self in
      inr (self, env)
  end.




(** * Properties *)

(** ** Chunked encoding and its reader *)

Lemma hex_val_hex_digit (d : N) :
  (d < 16)%N -> ChunkedReader.hex_val (Py.hex_digit d) = Some d.
Proof.
  intros H.
  assert (Hc : In d (map N.of_nat (seq 0 16))).
  { replace d with (N.of_nat (N.to_nat d)) by apply N2Nat.id.
    apply in_map, in_seq. lia. }
  simpl in Hc.
  repeat (destruct Hc as [<- | Hc]; [reflexivity |]).
  contradiction.
Qed.

Lemma read_hex_hex_loop (fuel : nat) :
  forall (n : N) (low tail : bytes) (seen : bool),
    (n < 2 ^ N.of_nat (S fuel))%N ->
    ChunkedReader.read_hex 0 seen (Py.hex_loop fuel n low ++ tail)
    = ChunkedReader.read_hex n true (low ++ tail).
Proof.
  assert (one : forall n low tail seen, (n < 16)%N ->
            ChunkedReader.read_hex 0 seen ((Py.hex_digit (n mod 16) :: low) ++ tail)
            = ChunkedReader.read_hex n true (low ++ tail)).
  { intros n low tail seen Hn. rewrite N.mod_small by assumption.
    simpl. rewrite hex_val_hex_digit by assumption. reflexivity. }
  induction fuel as [| fuel IH]; intros n low tail seen Hn.
  - simpl Py.hex_loop. apply one. change (2 ^ N.of_nat 1)%N with 2%N in Hn. lia.
  - simpl Py.hex_loop. destruct (N.eqb_spec (n / 16) 0) as [Hz | Hz].
    + apply one. apply N.div_small_iff in Hz; lia.
    + rewrite IH.
      * simpl. rewrite hex_val_hex_digit by (apply N.mod_lt; lia).
        f_equal. rewrite N.mul_comm. symmetry. apply N.div_mod. lia.
      * rewrite Nat2N.inj_succ, N.pow_succ_r' in Hn.
        apply N.Div0.div_lt_upper_bound. lia.
Qed.

Lemma read_hex_format_X (n : N) (rest : bytes) :
  ChunkedReader.read_hex 0 false (Py.format_X n ++ CRLF ++ rest)
  = Some (n, CRLF ++ rest).
Proof.
  unfold Py.format_X. rewrite read_hex_hex_loop.
  - reflexivity.
  - rewrite Nat2N.inj_succ, N2Nat.id.
    destruct (N.eq_dec n 0) as [-> | Hn]; [reflexivity |].
    apply N.log2_spec. lia.
Qed.

(** The reader takes one frame off the input and goes on. *)
Lemma read_chunks_frame (fuel : nat) (c rest : bytes) :
  c <> [] ->
  ChunkedReader.read_chunks (S fuel) (chunk_encoding c ++ rest)
  = match ChunkedReader.read_chunks fuel rest with
    | Some (body, unread) => Some (c ++ body, unread)
    | None => None
    end.
Proof.
  intros Hc. unfold chunk_encoding.
  rewrite <- !app_assoc.
  cbn [ChunkedReader.read_chunks]. rewrite read_hex_format_X.
  cbn [CRLF app ChunkedReader.read_crlf].
  destruct (N.eqb_spec (N.of_nat (length c)) 0) as [Hz | _].
  { destruct c; [congruence | simpl in Hz; lia]. }
  rewrite Nat2N.id.
  destruct (Nat.ltb_spec (length (c ++ x0d :: x0a :: rest)) (length c)) as [Hl | _].
  { rewrite length_app in Hl. lia. }
  rewrite skipn_app, skipn_all, Nat.sub_diag, firstn_app, firstn_all, Nat.sub_diag.
  simpl. rewrite app_nil_r. reflexivity.
Qed.

(** The zero-size chunk ends the body; what follows is left unread. *)
Lemma read_chunks_last (fuel : nat) (rest : bytes) :
  ChunkedReader.read_chunks (S fuel) (chunk_encoding [] ++ rest) = Some ([], rest).
Proof. reflexivity. Qed.

Lemma read_chunks_frames (pieces : list bytes) :
  Forall (fun p => p <> []) pieces ->
  forall (fuel : nat) (rest : bytes),
    length pieces < fuel ->
    ChunkedReader.read_chunks fuel
      (concat (map chunk_encoding pieces) ++ chunk_encoding [] ++ rest)
    = Some (concat pieces, rest).
Proof.
  induction 1 as [| p ps Hp _ IH]; intros fuel rest Hf.
  - destruct fuel; [inversion Hf | apply read_chunks_last].
  - destruct fuel as [| fuel]; [inversion Hf |].
    cbn [map concat]. rewrite <- app_assoc, read_chunks_frame by assumption.
    rewrite IH by (simpl in Hf; lia). reflexivity.
Qed.

Lemma chunk_encoding_length (c : bytes) : 0 < length (chunk_encoding c).
Proof.
  unfold chunk_encoding. rewrite !length_app. simpl. lia.
Qed.

Lemma frames_length (pieces : list bytes) :
  length pieces <= length (concat (map chunk_encoding pieces)).
Proof.
  induction pieces as [| p ps IH]; simpl; [lia |].
  rewrite length_app. pose proof (chunk_encoding_length p). lia.
Qed.

(** The chunking loop cuts a fragment into non-empty pieces of at most
    [MAX_CHUNK_SIZE] bytes, in order, and encodes each. *)
Lemma chunks_pieces (b : bytes) :
  exists pieces,
    chunks b = map chunk_encoding pieces /\
    concat pieces = b /\
    Forall (fun p => p <> [] /\ length p <= MAX_CHUNK_SIZE) pieces.
Proof.
  remember (length b) as n eqn:Hn. revert b Hn.
  induction n as [n IH] using lt_wf_ind. intros b ->.
  pose proof MAX_CHUNK_SIZE_pos as Hpos.
  rewrite chunks_equation_1.
  destruct (le_lt_dec MAX_CHUNK_SIZE (length b)) as [Hle | Hlt]; cbn [chunks_unfold_clause_1].
  - destruct (IH (length (skipn MAX_CHUNK_SIZE b))) with (b := skipn MAX_CHUNK_SIZE b)
      as (ps & E1 & E2 & E3).
    + rewrite length_skipn. lia.
    + reflexivity.
    + exists (firstn MAX_CHUNK_SIZE b :: ps). repeat split.
      * cbn [map]. rewrite E1. reflexivity.
      * cbn [concat]. rewrite E2. apply firstn_skipn.
      * constructor; [| assumption]. split.
        -- intros E. apply (f_equal (@length byte)) in E.
           rewrite length_firstn in E. simpl in E. lia.
        -- rewrite length_firstn. lia.
  - destruct b as [| x b].
    + exists []. repeat split. constructor.
    + exists [x :: b]. repeat split.
      * simpl. rewrite app_nil_r. reflexivity.
      * constructor; [| constructor]. split; [discriminate | lia].
Qed.

Lemma flat_map_chunks_pieces (fragments : list bytes) :
  exists pieces,
    flat_map chunks fragments = map chunk_encoding pieces /\
    concat pieces = concat fragments /\
    Forall (fun p => p <> [] /\ length p <= MAX_CHUNK_SIZE) pieces.
Proof.
  induction fragments as [| b bs (ps & E1 & E2 & E3)].
  - exists []. repeat split. constructor.
  - destruct (chunks_pieces b) as (qs & F1 & F2 & F3).
    exists (qs ++ ps). repeat split.
    + cbn [flat_map]. rewrite E1, F1, map_app. reflexivity.
    + cbn [concat]. rewrite concat_app, E2, F2. reflexivity.
    + apply Forall_app. split; assumption.
Qed.

Lemma chunks_nil : chunks [] = [].
Proof.
  rewrite chunks_equation_1.
  destruct (le_lt_dec MAX_CHUNK_SIZE (length (@nil byte))) as [Hle | Hlt];
    cbn [chunks_unfold_clause_1]; [| reflexivity].
  pose proof MAX_CHUNK_SIZE_pos. simpl in Hle. lia.
Qed.

(** With chunked encoding on, the bytes that [generate] yields for the
    fragments of a body are the frames of the chunking loop: an empty
    fragment adds none. *)
Lemma body_yields_chunked (self : Self.t) (fragments : list bytes) :
  chunked self = true ->
  concat (flat_map (body_yields self) fragments)
  = concat (flat_map chunks fragments).
Proof.
  intros Hc. induction fragments as [| b bs IH]; [reflexivity |].
  cbn [flat_map]. rewrite !concat_app, IH. f_equal.
  destruct b as [| x b].
  - rewrite chunks_nil. reflexivity.
  - unfold body_yields. rewrite Hc. reflexivity.
Qed.

(** C5. Chunked round trip. Every fragment of a body sequence is cut by the
    chunking loop of [generate] into non-empty pieces of at most
    [MAX_CHUNK_SIZE] bytes, each piece is framed by [chunk_encoding], and
    the frames, concatenated and followed by [chunk_encoding(b'')], are read
    back by the chunked-body reader as exactly the concatenated fragments,
    in order; the reader stops right after the zero-size chunk, leaving
    whatever follows unread. These frames are the bytes that [generate]
    yields for the fragments when chunked encoding is on. *)
Theorem chunked_round_trip (fragments : list bytes) (rest : bytes) :
  (exists pieces,
      flat_map chunks fragments = map chunk_encoding pieces /\
      concat pieces = concat fragments /\
      Forall (fun p => p <> [] /\ length p <= MAX_CHUNK_SIZE) pieces) /\
  ChunkedReader.decode
    (concat (flat_map chunks fragments) ++ chunk_encoding [] ++ rest)
  = Some (concat fragments, rest) /\
  (forall self,
      chunked self = true ->
      ChunkedReader.decode
        (concat (flat_map (body_yields self) fragments) ++
         chunk_encoding [] ++ rest)
      = Some (concat fragments, rest)).
Proof.
  destruct (flat_map_chunks_pieces fragments) as (ps & E1 & E2 & E3).
  assert (D : ChunkedReader.decode
                (concat (flat_map chunks fragments) ++ chunk_encoding [] ++ rest)
              = Some (concat fragments, rest)).
  { unfold ChunkedReader.decode. rewrite E1, <- E2.
    apply read_chunks_frames.
    - eapply Forall_impl; [| exact E3]. intros p [Hp _]. exact Hp.
    - rewrite length_app. pose proof (frames_length ps). lia. }
  split; [exists ps; repeat split; assumption |].
  split; [exact D |].
  intros self Hc. rewrite body_yields_chunked by exact Hc. exact D.
Qed.

(** ** The header container *)



Lemma get_all_app (h1 h2 : Headers.t) (name : string) :
  Headers.get_all (h1 ++ h2) name
  = Headers.get_all h1 name ++ Headers.get_all h2 name.
Proof.
  unfold Headers.get_all. rewrite filter_app, map_app. reflexivity.
Qed.

Lemma get_all_cons (p : string * string) (h : Headers.t) (name : string) :
  Headers.get_all (p :: h) name
  = if Headers.named name p then snd p :: Headers.get_all h name
    else Headers.get_all h name.
Proof.
  unfold Headers.get_all. cbn [filter].
  destruct (Headers.named name p); reflexivity.
Qed.

Lemma get_all_pop_same (h : Headers.t) (name : string) :
  Headers.get_all (Headers.pop h name) name = [].
Proof.
  unfold Headers.get_all, Headers.pop.
  induction h as [| p h IH]; simpl; [reflexivity |].
  destruct (Headers.named name p) eqn:E; simpl; [assumption |].
  rewrite E. assumption.
Qed.

Lemma get_all_pop_other (h : Headers.t) (name other : string) :
  Headers.same_name other name = false ->
  Headers.get_all (Headers.pop h name) other = Headers.get_all h other.
Proof.
  intros Hne. unfold Headers.get_all, Headers.pop.
  induction h as [| p h IH]; simpl; [reflexivity |].
  destruct (Headers.named name p) eqn:E; simpl.
  - destruct (Headers.named other p) eqn:E'; [| assumption].
    exfalso. unfold Headers.named, Headers.same_name in *.
    apply String.eqb_eq in E, E'. rewrite <- E, <- E' in Hne.
    rewrite String.eqb_refl in Hne. discriminate.
  - destruct (Headers.named other p); simpl; rewrite IH; reflexivity.
Qed.

Lemma get_all_set_same (h : Headers.t) (name value : string) :
  Headers.get_all (Headers.set h name value) name = [value].
Proof.
  unfold Headers.set, Headers.add_header.
  rewrite get_all_app, get_all_pop_same.
  unfold Headers.get_all, Headers.named, Headers.same_name. simpl.
  rewrite String.eqb_refl. reflexivity.
Qed.

Lemma get_all_set_other (h : Headers.t) (name other value : string) :
  Headers.same_name other name = false ->
  Headers.get_all (Headers.set h name value) other = Headers.get_all h other.
Proof.
  intros Hne. unfold Headers.set, Headers.add_header.
  rewrite get_all_app, get_all_pop_other by assumption.
  unfold Headers.get_all at 2. unfold Headers.named. simpl.
  assert (E : Headers.same_name name other = false).
  { unfold Headers.same_name in *. rewrite String.eqb_sym. assumption. }
  rewrite E. apply app_nil_r.
Qed.

(** ** The keep-alive decision *)

(** C2, as amended. For every header set and version, [keep_alive] follows
    the priority table on the lower-cased values of the [connection]
    header: false if they contain [close]; else true, with the [connection]
    header forced to the single value [Upgrade] and every other header left
    as it was, if they contain [upgrade]; else true, the headers untouched,
    if they contain [keep-alive]; else, if the version is exactly (1, 1),
    true with the [connection] header set to [keep-alive]; otherwise
    false. *)
Theorem keep_alive_table (headers : Headers.t) (version : nat * nat) :
  let conn := map Py.lower (Headers.get_all headers "connection") in
  (mem "close" conn = true -> keep_alive headers version = (headers, false)) /\
  (mem "close" conn = false -> mem "upgrade" conn = true ->
   snd (keep_alive headers version) = true /\
   Headers.get_all (fst (keep_alive headers version)) "connection" = ["Upgrade"] /\
   forall other, Headers.same_name other "connection" = false ->
     Headers.get_all (fst (keep_alive headers version)) other
     = Headers.get_all headers other) /\
  (mem "close" conn = false -> mem "upgrade" conn = false ->
   mem "keep-alive" conn = true -> keep_alive headers version = (headers, true)) /\
  (mem "close" conn = false -> mem "upgrade" conn = false ->
   mem "keep-alive" conn = false -> version = (1, 1) ->
   snd (keep_alive headers version) = true /\
   Headers.get_all (fst (keep_alive headers version)) "connection" = ["keep-alive"] /\
   forall other, Headers.same_name other "connection" = false ->
     Headers.get_all (fst (keep_alive headers version)) other
     = Headers.get_all headers other) /\
  (mem "close" conn = false -> mem "upgrade" conn = false ->
   mem "keep-alive" conn = false -> version <> (1, 1) ->
   keep_alive headers version = (headers, false)).
Proof.
  intros conn. unfold keep_alive. fold conn.
  repeat split; intros.
  all: repeat match goal with H : mem _ _ = _ |- _ => rewrite H; clear H end.
  all: try subst version.
  all: cbn [fst snd Nat.eqb andb].
  all: try reflexivity.
  all: try apply get_all_set_same.
  all: try (apply get_all_set_other; assumption).
  destruct version as [major minor]. cbn [fst snd].
  destruct (Nat.eqb_spec major 1) as [-> |]; [| reflexivity].
  destruct (Nat.eqb_spec minor 1) as [-> |]; [| reflexivity].
  congruence.
Qed.

(** ** Transfer-encoding selection *)



(** ** Setting the status and the headers *)


(** ** The response generator *)

Lemma send_headers_sent (self : Self.t) (force : bool) :
  Py.truthy_bytes (Self._headers_sent self) = true ->
  send_headers self force = (self, inr None).
Proof.
  intros H. unfold send_headers. rewrite H. reflexivity.
Qed.

Lemma send_headers_not_forced (self : Self.t) :
  Py.truthy_opt (upgrade self) = false ->
  send_headers self false = (self, inr None).
Proof.
  intros H. unfold send_headers, get_headers_to_send. rewrite H.
  destruct (Py.truthy_bytes (Self._headers_sent self)); reflexivity.
Qed.

(** What [start_response], [send_headers] and the iteration leave alone:
    every attribute that setting the status, the headers and the header
    block does not touch. *)
Section Frame.

Variable A : Type.
Variable attribute : Self.t -> A.

Hypothesis frame_status :
  forall v s, attribute (Self.with_status v s) = attribute s.
Hypothesis frame_headers :
  forall v s, attribute (Self.with_headers v s) = attribute s.
Hypothesis frame_headers_sent :
  forall v s, attribute (Self.with_headers_sent v s) = attribute s.

Lemma add_response_headers_frame (items : list (string * string)) :
  forall self, attribute (add_response_headers self items) = attribute self.
Proof.
  unfold add_response_headers.
  induction items as [| p items IH]; intros self; [reflexivity |].
  simpl. destruct (mem (Py.lower (fst p)) HOP_HEADERS); rewrite IH;
    [reflexivity | apply frame_headers].
Qed.

Lemma start_response_frame (self : Self.t) (status : string)
  (response_headers : header_arg) (exc_info : option exn) :
  attribute (fst (start_response self status response_headers exc_info))
  = attribute self.
Proof.
  unfold start_response.
  destruct (start_response_guard self exc_info); [reflexivity |].
  destruct response_headers; cbn [fst].
  - rewrite add_response_headers_frame. apply frame_status.
  - apply frame_status.
Qed.

Lemma send_headers_frame (self : Self.t) (force : bool) :
  attribute (fst (send_headers self force)) = attribute self.
Proof.
  unfold send_headers, get_headers_to_send.
  destruct (negb (Py.truthy_bytes (Self._headers_sent self))); [| reflexivity].
  destruct (Py.truthy_opt (upgrade self) || force); [| reflexivity].
  destruct (negb (Py.truthy_opt (Self._status self))); [reflexivity |].
  destruct (is_chunked self) as [e | c]; [reflexivity |].
  match goal with |- context [Headers_bool ?h] => destruct (Headers_bool h) end;
    cbn [fst]; rewrite ?frame_headers_sent; apply frame_headers.
Qed.

Lemma iterate_frame (iterable : list app_step) :
  forall self, attribute (fst (fst (iterate self iterable))) = attribute self.
Proof.
  induction iterable as [| step rest IH]; intros self; [reflexivity |].
  destruct step as [status hs exc | b | e]; cbn [iterate].
  - pose proof (start_response_frame self status hs exc) as K.
    destruct (start_response self status hs exc) as [s [e |]]; cbn [fst] in *.
    + exact K.
    + rewrite IH. exact K.
  - pose proof (send_headers_frame self (negb (Nat.eqb (length b) 0))) as K.
    destruct (send_headers self (negb (Nat.eqb (length b) 0))) as [s [e | head]];
      cbn [fst] in *.
    + exact K.
    + specialize (IH s). destruct (iterate s rest) as [[s' out'] end_].
      cbn [fst] in *. congruence.
  - reflexivity.
Qed.

End Frame.

Lemma add_response_headers_keep_alive (items : list (string * string))
  (self : Self.t) :
  Self.keep_alive (add_response_headers self items) = Self.keep_alive self.
Proof. apply add_response_headers_frame; reflexivity. Qed.

Lemma send_headers_keep_alive (self : Self.t) (force : bool) :
  Self.keep_alive (fst (send_headers self force)) = Self.keep_alive self.
Proof. apply send_headers_frame; reflexivity. Qed.

Lemma iterate_keep_alive (iterable : list app_step) (self : Self.t) :
  Self.keep_alive (fst (fst (iterate self iterable))) = Self.keep_alive self.
Proof. apply iterate_frame; reflexivity. Qed.


Lemma send_headers_transport (self : Self.t) (force : bool) :
  Self.transport (fst (send_headers self force)) = Self.transport self.
Proof. apply send_headers_frame; reflexivity. Qed.


(** The iteration stops at the first exception: what follows it in the
    script is never run. *)
Lemma iterate_app (pre : list app_step) :
  forall self self1 out1 rest,
    iterate self pre = (self1, out1, Exhausted) ->
    iterate self (pre ++ rest)
    = (let '(s, out, end_) := iterate self1 rest in (s, out1 ++ out, end_)).
Proof.
  induction pre as [| step pre IH]; intros self self1 out1 rest H.
  - simpl in H. injection H as <- <-. simpl.
    destruct (iterate self rest) as [[s out] end_]. reflexivity.
  - destruct step as [status hs exc | b | e]; cbn [iterate app] in *.
    + destruct (start_response self status hs exc) as [s [e |]];
        [discriminate |]. apply IH. exact H.
    + destruct (send_headers self (negb (Nat.eqb (length b) 0))) as [s [e | head]];
        [discriminate |].
      destruct (iterate s pre) as [[s' out'] end_] eqn:E.
      injection H as <- <- ->. rewrite (IH _ _ _ rest E).
      destruct (iterate s' rest) as [[s2 out2] end2].
      rewrite <- !app_assoc. reflexivity.
    + discriminate.
Qed.

(** A turn that starts with [exc_info] set always breaks. *)
Lemma generate_turn_second (wsgi_callable iterable : list app_step)
  (environ : list (string * string)) (self : Self.t) (e : exn) :
  exists self' out escaped,
    generate_turn wsgi_callable environ self (Some e) iterable
    = Break self' out escaped.
Proof.
  unfold generate_turn.
  destruct (iterate self iterable) as [[s out] [| e']].
  - destruct (send_headers s true) as [s' [e' | head]]; eauto.
  - cbn [orb]. eauto.
Qed.

(** The [while True] loop of [generate] ends within two turns. *)
Lemma generate_loop_two_turns (wsgi_callable : list app_step)
  (environ : list (string * string)) (self : Self.t) (n : nat) :
  generate_loop (2 + n) wsgi_callable environ self None []
  = Some (generate wsgi_callable environ self).
Proof.
  unfold generate. cbn [generate_loop Nat.add].
  destruct (generate_turn wsgi_callable environ self None [])
    as [s out esc | s out e it]; [reflexivity |].
  destruct (generate_turn_second wsgi_callable it environ s e)
    as (s' & out' & esc & E).
  rewrite E. reflexivity.
Qed.

(** C7. An empty fragment does not bring the header block out: when the
    response is not an upgrade (or the headers are out already), the header
    step of an empty fragment sends nothing and leaves the instance as it
    was, and the fragment yields the empty byte string only; so a run of
    empty fragments yields empty byte strings only, with the headers still
    unsent, until something else forces them. For an upgrade, the header
    step of an empty fragment is that of a non-empty one. *)
Theorem empty_fragment_sends_no_headers (self : Self.t) :
  (Py.truthy_opt (upgrade self) = false \/
   Py.truthy_bytes (Self._headers_sent self) = true ->
   send_headers self false = (self, inr None) /\
   forall rest,
     iterate self (Yield [] :: rest)
     = (let '(s, out, end_) := iterate self rest in (s, [] :: out, end_))) /\
  (Py.truthy_opt (upgrade self) = false ->
   forall k rest,
     iterate self (repeat (Yield []) k ++ rest)
     = (let '(s, out, end_) := iterate self rest in
        (s, repeat [] k ++ out, end_)) /\
     concat (repeat (@nil byte) k) = []) /\
  (Py.truthy_opt (upgrade self) = true ->
   send_headers self false = send_headers self true).
Proof.
  assert (step : Py.truthy_opt (upgrade self) = false \/
                 Py.truthy_bytes (Self._headers_sent self) = true ->
                 send_headers self false = (self, inr None)).
  { intros [H | H]; [apply send_headers_not_forced | apply send_headers_sent];
      exact H. }
  split; [| split].
  - intros H. split; [apply step; exact H |].
    intros rest. cbn [iterate length Nat.eqb negb]. rewrite (step H).
    destruct (iterate self rest) as [[s out] end_]. reflexivity.
  - intros H k rest. split.
    + induction k as [| k IH]; cbn [repeat app].
      * destruct (iterate self rest) as [[s out] end_]. reflexivity.
      * cbn [iterate length Nat.eqb negb]. rewrite (step (or_introl H)), IH.
        destruct (iterate self rest) as [[s out] end_]. reflexivity.
    + induction k as [| k IH]; [reflexivity | exact IH].
  - intros H. unfold send_headers, get_headers_to_send. rewrite H. reflexivity.
Qed.

(** C4. When the iteration over the application's body ends by an
    exception and the header block has been sent by then, [generate] yields
    exactly what had been yielded before the exception and nothing more,
    sets keep-alive to false, closes the connection and reports the
    exchange finished; no exception leaves the generator. *)
Theorem raise_after_headers_sent (wsgi_callable : list app_step)
  (environ : list (string * string)) (self self1 : Self.t)
  (out1 : list bytes) (e : exn) :
  iterate self wsgi_callable = (self1, out1, Raised e) ->
  Py.truthy_bytes (Self._headers_sent self1) = true ->
  let result := generate wsgi_callable environ self in
  result = (finalize (Self.with_keep_alive false self1), out1, None) /\
  snd (fst result) = out1 /\
  Self.keep_alive (fst (fst result)) = false /\
  Self.connection_closed (fst (fst result)) = true /\
  Self.finished (fst (fst result)) = true /\
  Self._headers_sent (fst (fst result)) = Self._headers_sent self1.
Proof.
  intros Hit Hsent result.
  assert (E : result = (finalize (Self.with_keep_alive false self1), out1, None)).
  { subst result. unfold generate, generate_turn. rewrite Hit.
    cbn [orb]. replace (Py.truthy_bytes (Self._headers_sent self1)) with true.
    reflexivity. }
  rewrite E. repeat split.
Qed.

(** C3. When the iteration over the application's body ends by an
    exception before any header was sent, [generate] asks
    [handle_wsgi_error] for a substitute once: keep-alive is set to false
    unless the status code of the substitute is a redirect code, in which
    case it stays as computed; the substitute sets its status and headers
    and its body is iterated. If that iteration ends by an exception too,
    whether or not headers were sent, [generate] stops there: keep-alive is
    false, the connection is closed, and nothing is yielded beyond what the
    two iterations produced. If it ends normally, the response is completed
    with the keep-alive value decided at the substitution. In every case the
    loop ends within two turns. *)
Theorem substitute_once (wsgi_callable : list app_step)
  (environ : list (string * string)) (self self1 : Self.t)
  (out1 : list bytes) (e : exn) :
  iterate self wsgi_callable = (self1, out1, Raised e) ->
  Py.truthy_bytes (Self._headers_sent self1) = false ->
  let response := handle_wsgi_error environ e in
  let redirect := existsb (Nat.eqb (status_code response)) REDIRECT_CODES in
  let self2 := if redirect then self1 else Self.with_keep_alive false self1 in
  let self3 := add_response_headers
                 (Self.with_status (Some (response_status response)) self2)
                 (response_headers response) in
  let result := generate wsgi_callable environ self in
  Self.keep_alive self3 = (if redirect then Self.keep_alive self1 else false) /\
  call_response self2 response e = (self3, inr (content response)) /\
  (forall n, generate_loop (2 + n) wsgi_callable environ self None [] = Some result) /\
  (forall self4 out2 e2,
      iterate self3 (content response) = (self4, out2, Raised e2) ->
      result = (finalize (Self.with_keep_alive false self4), out1 ++ out2, None) /\
      Self.keep_alive (fst (fst result)) = false /\
      Self.connection_closed (fst (fst result)) = true) /\
  (forall self4 out2 self5 head,
      iterate self3 (content response) = (self4, out2, Exhausted) ->
      send_headers self4 true = (self5, inr head) ->
      result = (finalize self5,
                out1 ++ out2 ++ head_yield head ++
                (if chunked self5 then [chunk_encoding []] else []), None) /\
      Self.keep_alive (fst (fst result))
      = (if redirect then Self.keep_alive self1 else false)).
Proof.
  intros Hit Hsent response redirect self2 self3 result.
  assert (Hsent2 : Py.truthy_bytes (Self._headers_sent self2) = false).
  { subst self2. destruct redirect; exact Hsent. }
  assert (K3 : Self.keep_alive self3 = (if redirect then Self.keep_alive self1 else false)).
  { subst self3. rewrite add_response_headers_keep_alive.
    subst self2. destruct redirect; reflexivity. }
  assert (Hcall : call_response self2 response e = (self3, inr (content response))).
  { unfold call_response, start_response, start_response_guard.
    rewrite Hsent2. reflexivity. }
  assert (Hturn : generate_turn wsgi_callable environ self None []
                  = Continue self3 out1 e (content response)).
  { unfold generate_turn. rewrite Hit. cbn [orb]. rewrite Hsent.
    fold response. fold redirect.
    replace (if negb redirect then Self.with_keep_alive false self1 else self1)
      with self2 by (subst self2; destruct redirect; reflexivity).
    rewrite Hcall. reflexivity. }
  split; [exact K3 | split; [exact Hcall | split; [| split]]].
  - intros n. apply generate_loop_two_turns.
  - intros self4 out2 e2 Hit2.
    assert (E : result = (finalize (Self.with_keep_alive false self4), out1 ++ out2, None)).
    { subst result. unfold generate. rewrite Hturn.
      unfold generate_turn. rewrite Hit2. reflexivity. }
    rewrite E. repeat split.
  - intros self4 out2 self5 head Hit2 Hsend.
    assert (E : result = (finalize self5,
                out1 ++ out2 ++ head_yield head ++
                (if chunked self5 then [chunk_encoding []] else []), None)).
    { subst result. unfold generate. rewrite Hturn.
      unfold generate_turn. rewrite Hit2, Hsend. reflexivity. }
    rewrite E. split; [reflexivity |].
    cbn [fst]. unfold finalize.
    assert (K5 : Self.keep_alive self5 = Self.keep_alive self3).
    { pose proof (send_headers_keep_alive self4 true) as A.
      rewrite Hsend in A. cbn [fst] in A.
      pose proof (iterate_keep_alive (content response) self3) as B.
      rewrite Hit2 in B. cbn [fst] in B. congruence. }
    rewrite <- K3, <- K5.
    destruct (negb (Self.keep_alive self5)); reflexivity.
Qed.

(** ** Expect: 100-continue *)







(** ** The environ builder *)






Lemma split_no_sep (c : ascii) (s : string) :
  Py.contains c s = false -> Py.split c s = [s].
Proof.
  induction s as [| x s IH]; simpl; [reflexivity |].
  destruct (Ascii.eqb x c); [discriminate |]. simpl.
  intros H. rewrite (IH H). reflexivity.
Qed.

Lemma split_sep (c : ascii) (s : string) :
  Py.contains c s = true -> exists a b rest, Py.split c s = a :: b :: rest.
Proof.
  induction s as [| x s IH]; simpl; [discriminate |].
  destruct (Ascii.eqb x c); simpl.
  - intros _. destruct (Py.contains c s) eqn:E.
    + destruct (IH eq_refl) as (a & b & rest & ->). eauto.
    + rewrite (split_no_sep c s E). eauto.
  - intros H. destruct (IH H) as (a & b & rest & ->). eauto.
Qed.








(** * Further properties of the response cycle *)

(** ** The header block and [write] *)

Lemma flat_truthy (h : Headers.t) (v : nat * nat) (s : string) :
  Py.truthy_bytes (Some (Headers.flat h v s)) = true.
Proof. reflexivity. Qed.

Lemma send_headers_block (self s' : Self.t) (force : bool) (block : bytes) :
  send_headers self force = (s', inr (Some block)) ->
  Py.truthy_bytes (Self._headers_sent self) = false /\
  Self._headers_sent s' = Some block /\
  Py.truthy_bytes (Some block) = true /\
  Py.truthy_opt (Self._status s') = true /\
  Self.headers s' = Self.headers (fst (get_headers_to_send self force)) /\
  block = Headers.flat (Self.headers s') (version s') (status_text s').
Proof.
  unfold send_headers, get_headers_to_send.
  destruct (Py.truthy_bytes (Self._headers_sent self)) eqn:Es;
    cbn [negb]; [discriminate |].
  destruct (Py.truthy_opt (upgrade self) || force); [| discriminate].
  destruct (Py.truthy_opt (Self._status self)) eqn:Est; cbn [negb];
    [| discriminate].
  destruct (is_chunked self) as [e | c]; [discriminate |].
  match goal with |- context [Headers_bool ?h] => destruct (Headers_bool h) end;
    [| discriminate].
  intros H. injection H as <- <-. cbn [fst].
  repeat split; try reflexivity. exact Est.
Qed.

(** X1. The header block goes out once. After a call of [send_headers]
    that returned the block, any later call, forced or not, returns [None]
    and leaves the instance as it is; the block is never empty. *)
Theorem header_block_sent_once (self s' : Self.t) (force : bool)
  (block : bytes) :
  send_headers self force = (s', inr (Some block)) ->
  block <> [] /\
  Self._headers_sent s' = Some block /\
  forall force', send_headers s' force' = (s', inr None).
Proof.
  intros H. destruct (send_headers_block self s' force block H)
    as (_ & Hs & Ht & _ & _ & _).
  split; [intros ->; discriminate Ht | split; [exact Hs |]].
  intros force'. apply send_headers_sent. rewrite Hs. exact Ht.
Qed.

(** X2. Two calls of [write] with data, on an instance whose headers are
    ready to go: both succeed, and the transport receives the header block,
    then the first data, then the second, the block only once. *)
Theorem write_sends_block_once (self s2 : Self.t) (block data data' : bytes) :
  data <> [] -> data' <> [] ->
  send_headers self true = (s2, inr (Some block)) ->
  snd (write self data) = None /\
  snd (write (fst (write self data)) data') = None /\
  Self.transport (fst (write self data)) = Self.transport self ++ [block; data] /\
  Self.transport (fst (write (fst (write self data)) data'))
  = Self.transport self ++ [block; data; data'] /\
  Self._headers_sent (fst (write (fst (write self data)) data')) = Some block.
Proof.
  intros Hd Hd' H.
  destruct (send_headers_block self s2 true block H) as (_ & Hs & Ht & _ & _ & _).
  pose proof (send_headers_transport self true) as T. rewrite H in T. cbn [fst] in T.
  assert (W1 : write self data
               = (Self.transport_write data (Self.transport_write block s2), None)).
  { unfold write. destruct data as [| x data]; [congruence |].
    cbn [length Nat.eqb negb]. rewrite H, Ht. reflexivity. }
  assert (W2 : write (Self.transport_write data (Self.transport_write block s2)) data'
               = (Self.transport_write data'
                    (Self.transport_write data (Self.transport_write block s2)), None)).
  { unfold write. rewrite send_headers_sent.
    - destruct data' as [| x data']; [congruence | reflexivity].
    - cbn. rewrite Hs. exact Ht. }
  rewrite W1. cbn [fst snd]. rewrite W2. cbn [fst snd].
  cbn [Self.transport Self.transport_write Self._headers_sent]. rewrite T, Hs.
  repeat split; rewrite <- ?app_assoc; reflexivity.
Qed.

(** X3. [write] at the edges. With no data and no [Upgrade] header it
    writes nothing and changes nothing, whether or not a status is set;
    with data but no status set and no headers sent it raises
    [HttpException] before anything is written. *)
Theorem write_edge_cases (self : Self.t) :
  (Py.truthy_opt (upgrade self) = false -> write self [] = (self, None)) /\
  (forall data,
      data <> [] ->
      Py.truthy_opt (Self._status self) = false ->
      Py.truthy_bytes (Self._headers_sent self) = false ->
      write self data = (self, Some (HttpException "Headers not set."))).
Proof.
  split.
  - intros H. unfold write. cbn [length Nat.eqb negb].
    rewrite send_headers_not_forced by exact H. reflexivity.
  - intros data Hd Hst Hs. unfold write, send_headers, get_headers_to_send.
    destruct data as [| x data]; [congruence |].
    cbn [length Nat.eqb negb]. rewrite Hs, Hst, Bool.orb_true_r. reflexivity.
Qed.

(** X4. Once the header block is out, the response is frozen: every call
    of [start_response], with or without [exc_info], raises and leaves the
    instance as it is, and whatever the application goes on to do, the
    iteration over its body leaves the status, the headers and every other
    attribute unchanged. *)
Theorem frozen_after_headers_sent (self s' : Self.t) (force : bool)
  (block : bytes) :
  send_headers self force = (s', inr (Some block)) ->
  (forall status response_headers exc_info,
      fst (start_response s' status response_headers exc_info) = s' /\
      snd (start_response s' status response_headers exc_info) <> None) /\
  (forall iterable, fst (fst (iterate s' iterable)) = s').
Proof.
  intros H. destruct (send_headers_block self s' force block H)
    as (_ & Hs & Ht & Hst & _ & _).
  assert (Hsent : Py.truthy_bytes (Self._headers_sent s') = true)
    by (rewrite Hs; exact Ht).
  assert (start : forall status response_headers exc_info,
             fst (start_response s' status response_headers exc_info) = s' /\
             snd (start_response s' status response_headers exc_info) <> None).
  { intros status hs exc. unfold start_response, start_response_guard.
    destruct exc; rewrite ?Hsent, ?Hst; split; try reflexivity; discriminate. }
  split; [exact start |].
  induction iterable as [| step rest IH]; [reflexivity |].
  destruct step as [status hs exc | b | e]; cbn [iterate].
  - destruct (start status hs exc) as [A B].
    destruct (start_response s' status hs exc) as [s [e |]]; cbn [fst snd] in *.
    + exact A.
    + congruence.
  - rewrite send_headers_sent by exact Hsent.
    destruct (iterate s' rest) as [[s out] end_]. exact IH.
  - reflexivity.
Qed.


(** ** The headers as they are finalized *)

Lemma named_same_name (a b : string) (p : string * string) :
  Headers.same_name a b = true -> Headers.named a p = Headers.named b p.
Proof.
  unfold Headers.named, Headers.same_name. intros H.
  apply String.eqb_eq in H. rewrite H. reflexivity.
Qed.

Lemma get_all_pop (h : Headers.t) (name other : string) :
  Headers.get_all (Headers.pop h name) other
  = if Headers.same_name other name then [] else Headers.get_all h other.
Proof.
  destruct (Headers.same_name other name) eqn:E.
  - unfold Headers.get_all, Headers.pop.
    induction h as [| p h IH]; [reflexivity |]. cbn [filter].
    rewrite <- (named_same_name other name p E).
    destruct (Headers.named other p) eqn:En; cbn [negb filter]; [exact IH |].
    rewrite En. exact IH.
  - apply get_all_pop_other. exact E.
Qed.

Lemma get_all_set (h : Headers.t) (name other value : string) :
  Headers.get_all (Headers.set h name value) other
  = if Headers.same_name other name then [value] else Headers.get_all h other.
Proof.
  destruct (Headers.same_name other name) eqn:E.
  - unfold Headers.set, Headers.add_header.
    rewrite get_all_app, get_all_pop, E.
    unfold Headers.get_all, Headers.named. cbn [filter fst].
    assert (E' : Headers.same_name name other = true).
    { unfold Headers.same_name in *. rewrite String.eqb_sym. exact E. }
    rewrite E'. reflexivity.
  - apply get_all_set_other. exact E.
Qed.

(** What [get_headers] leaves in the headers, by header name. *)
Lemma get_headers_to_send_spec (self s' : Self.t) (force : bool)
  (h : Headers.t) :
  get_headers_to_send self force = (s', inr (Some h)) ->
  Self.headers s' = h /\
  exists c,
    is_chunked self = inr c /\
    Headers.get_all h "Transfer-Encoding" = (if c then ["chunked"] else []) /\
    Headers.get_all h "Content-Length"
    = (if c then [] else Headers.get_all (Self.headers self) "Content-Length") /\
    Headers.get_all h "connection"
    = (if Self.keep_alive self
       then Headers.get_all (Self.headers self) "connection"
       else ["close"]) /\
    forall other,
      Headers.same_name other "Transfer-Encoding" = false ->
      Headers.same_name other "Content-Length" = false ->
      Headers.same_name other "connection" = false ->
      Headers.get_all h other = Headers.get_all (Self.headers self) other.
Proof.
  unfold get_headers_to_send.
  destruct (Py.truthy_opt (upgrade self) || force); [| discriminate].
  destruct (negb (Py.truthy_opt (Self._status self))); [discriminate |].
  destruct (is_chunked self) as [e | c]; [discriminate |].
  intros H. injection H as <- <-. split; [reflexivity |].
  exists c. split; [reflexivity |].
  assert (CL : forall other,
             Headers.same_name other "content-length"
             = Headers.same_name other "Content-Length")
    by (intros other; reflexivity).
  destruct c, (Self.keep_alive self); cbn [negb];
    repeat split; intros;
    rewrite ?get_all_set, ?get_all_pop, ?get_all_set, ?CL;
    repeat match goal with H : Headers.same_name _ _ = false |- _ =>
             rewrite H; clear H end;
    reflexivity.
Qed.

(** X5. The headers that [get_headers] returns are normalized: they hold
    [Transfer-Encoding: chunked] as their only transfer encoding and no
    [Content-Length] when [is_chunked] says yes, no [Transfer-Encoding] at
    all when it says no, so never both; [connection] is the single value
    [close] when keep-alive is off and untouched when it is on; and every
    header of another name is as the application and the server left it. *)
Theorem headers_normalized (self s' : Self.t) (force : bool) (h : Headers.t) :
  get_headers_to_send self force = (s', inr (Some h)) ->
  Self.headers s' = h /\
  (is_chunked self = inr true ->
   Headers.get_all h "Transfer-Encoding" = ["chunked"] /\
   Headers.get_all h "Content-Length" = []) /\
  (is_chunked self = inr false ->
   Headers.get_all h "Transfer-Encoding" = [] /\
   Headers.get_all h "Content-Length"
   = Headers.get_all (Self.headers self) "Content-Length") /\
  (Headers.get_all h "Transfer-Encoding" = [] \/
   Headers.get_all h "Content-Length" = []) /\
  (Self.keep_alive self = false -> Headers.get_all h "connection" = ["close"]) /\
  (Self.keep_alive self = true ->
   Headers.get_all h "connection"
   = Headers.get_all (Self.headers self) "connection") /\
  (forall other,
      Headers.same_name other "Transfer-Encoding" = false ->
      Headers.same_name other "Content-Length" = false ->
      Headers.same_name other "connection" = false ->
      Headers.get_all h other = Headers.get_all (Self.headers self) other).
Proof.
  intros H.
  destruct (get_headers_to_send_spec self s' force h H)
    as (Hh & c & Hc & TE & CL & CO & OT).
  split; [exact Hh |].
  split; [intros E; rewrite Hc in E; injection E as ->; split; assumption |].
  split; [intros E; rewrite Hc in E; injection E as ->; split; assumption |].
  split; [destruct c; [right | left]; assumption |].
  split; [intros E; rewrite E in CO; exact CO |].
  split; [intros E; rewrite E in CO; exact CO | exact OT].
Qed.

(** X6. The body is encoded as the header block announces: after
    [send_headers] has sent the block, the [chunked] property, which
    [generate] consults for every fragment and for the last chunk, is true
    exactly when [is_chunked] decided for chunked encoding, and the headers
    in the block are those that [get_headers] finalized. *)
Theorem chunked_as_announced (self s' : Self.t) (force : bool) (block : bytes) :
  send_headers self force = (s', inr (Some block)) ->
  (chunked s' = true <-> is_chunked self = inr true) /\
  (chunked s' = false <-> is_chunked self = inr false) /\
  block = Headers.flat (Self.headers s') (version s') (status_text s') /\
  (chunked s' = true ->
   Headers.get_all (Self.headers s') "Transfer-Encoding" = ["chunked"] /\
   Headers.get_all (Self.headers s') "Content-Length" = []).
Proof.
  intros H.
  destruct (send_headers_block self s' force block H) as (_ & _ & _ & _ & Hh & Hb).
  destruct (get_headers_to_send self force) as [s1 [e | [h |]]] eqn:G.
  - unfold send_headers in H. rewrite G in H.
    destruct (negb (Py.truthy_bytes (Self._headers_sent self))); discriminate.
  - cbn [fst] in Hh.
    destruct (get_headers_to_send_spec self s1 force h G)
      as (Hh1 & c & Hc & TE & CL & _ & _).
    assert (Ec : chunked s' = c).
    { unfold chunked, Headers.get. rewrite Hh, Hh1, TE. destruct c; reflexivity. }
    rewrite Ec, Hc.
    split; [split; congruence |]. split; [split; congruence |].
    split; [exact Hb |].
    intros ->. rewrite Hh, Hh1. split; [exact TE | exact CL].
  - unfold send_headers in H. rewrite G in H.
    destruct (negb (Py.truthy_bytes (Self._headers_sent self))); discriminate.
Qed.

(** ** What the application can set *)

Lemma add_response_headers_get_all (name : string)
  (items : list (string * string)) :
  forall self,
    Headers.get_all (Self.headers (add_response_headers self items)) name
    = Headers.get_all (Self.headers self) name ++
      (if mem (Py.lower name) HOP_HEADERS then []
       else Headers.get_all items name).
Proof.
  unfold add_response_headers.
  induction items as [| p items IH]; intros self.
  - cbn [fold_left]. destruct (mem (Py.lower name) HOP_HEADERS);
      symmetry; apply app_nil_r.
  - cbn [fold_left]. rewrite IH, get_all_cons.
    destruct (Headers.named name p) eqn:En.
    + assert (E : Py.lower (fst p) = Py.lower name).
      { unfold Headers.named, Headers.same_name in En.
        apply String.eqb_eq in En. exact En. }
      rewrite E. destruct (mem (Py.lower name) HOP_HEADERS); [reflexivity |].
      cbn [Self.headers Self.with_headers]. unfold Headers.add_header.
      rewrite get_all_app, get_all_cons.
      change (Headers.named name (fst p, snd p)) with (Headers.named name p).
      rewrite En. cbn [Headers.get_all filter map snd].
      rewrite <- app_assoc. reflexivity.
    + destruct (mem (Py.lower (fst p)) HOP_HEADERS); [reflexivity |].
      cbn [Self.headers Self.with_headers]. unfold Headers.add_header.
      rewrite get_all_app, get_all_cons.
      change (Headers.named name (fst p, snd p)) with (Headers.named name p).
      rewrite En. cbn [Headers.get_all filter map].
      rewrite app_nil_r. reflexivity.
Qed.

(** X7. [start_response] keeps the hop-by-hop headers for the server: a
    successful call leaves the values of every header whose lower-case name
    is in [HOP_HEADERS] as they were, whatever the application passed, and
    appends the application's values of any other header, in order, after
    those already there; the status is the one passed. *)
Theorem start_response_filters_hop_headers (self s' : Self.t)
  (status : string) (items : list (string * string)) (exc_info : option exn) :
  start_response self status (HList items) exc_info = (s', None) ->
  Self._status s' = Some status /\
  (forall name,
      mem (Py.lower name) HOP_HEADERS = true ->
      Headers.get_all (Self.headers s') name
      = Headers.get_all (Self.headers self) name) /\
  (forall name,
      mem (Py.lower name) HOP_HEADERS = false ->
      Headers.get_all (Self.headers s') name
      = Headers.get_all (Self.headers self) name ++ Headers.get_all items name).
Proof.
  unfold start_response.
  destruct (start_response_guard self exc_info); [discriminate |].
  intros H. injection H as <-.
  split; [| split].
  - rewrite (add_response_headers_frame _ Self._status); reflexivity.
  - intros name Hn. rewrite add_response_headers_get_all, Hn.
    apply app_nil_r.
  - intros name Hn. rewrite add_response_headers_get_all, Hn. reflexivity.
Qed.


(** ** A whole response *)

Lemma decode_chunks (fragments : list bytes) (rest : bytes) :
  ChunkedReader.decode
    (concat (flat_map chunks fragments) ++ chunk_encoding [] ++ rest)
  = Some (concat fragments, rest).
Proof.
  destruct (flat_map_chunks_pieces fragments) as (ps & E1 & E2 & E3).
  unfold ChunkedReader.decode. rewrite E1, <- E2.
  apply read_chunks_frames.
  - eapply Forall_impl; [| exact E3]. intros p [Hp _]. exact Hp.
  - rewrite length_app. pose proof (frames_length ps). lia.
Qed.

Lemma body_yields_raw (self : Self.t) (fragments : list bytes) :
  chunked self = false ->
  concat (flat_map (body_yields self) fragments) = concat fragments.
Proof.
  intros Hc. induction fragments as [| b bs IH]; [reflexivity |].
  cbn [flat_map]. rewrite concat_app, IH. cbn [concat]. f_equal.
  destruct b as [| x b]; [reflexivity |].
  unfold body_yields. rewrite Hc. cbn [concat]. apply app_nil_r.
Qed.

Lemma send_headers_upgrade (self : Self.t) :
  Py.truthy_opt (upgrade self) = true ->
  send_headers self false = send_headers self true.
Proof.
  intros H. unfold send_headers, get_headers_to_send. rewrite H. reflexivity.
Qed.

Lemma iterate_fragments_sent (self : Self.t) (fragments : list bytes) :
  Py.truthy_bytes (Self._headers_sent self) = true ->
  iterate self (map Yield fragments)
  = (self, flat_map (body_yields self) fragments, Exhausted).
Proof.
  intros H. induction fragments as [| b bs IH]; [reflexivity |].
  cbn [map iterate]. rewrite send_headers_sent by exact H. rewrite IH.
  reflexivity.
Qed.

(** The fragments of a body, from an instance whose headers are ready:
    either the block has not come out yet, and nothing but empty strings
    was yielded for empty fragments, or it came out first. *)
Lemma iterate_fragments (s1 s2 : Self.t) (block : bytes) :
  send_headers s1 true = (s2, inr (Some block)) ->
  forall fragments,
    exists out,
      (iterate s1 (map Yield fragments) = (s1, out, Exhausted) /\
       concat out = [] /\
       concat (flat_map (body_yields s2) fragments) = []) \/
      (iterate s1 (map Yield fragments) = (s2, out, Exhausted) /\
       concat out = block ++ concat (flat_map (body_yields s2) fragments)).
Proof.
  intros H.
  destruct (send_headers_block s1 s2 true block H) as (_ & Hs & Ht & _ & _ & _).
  assert (Hsent : Py.truthy_bytes (Self._headers_sent s2) = true)
    by (rewrite Hs; exact Ht).
  assert (fire : forall b bs force,
             send_headers s1 force = (s2, inr (Some block)) ->
             force = negb (Nat.eqb (length b) 0) ->
             iterate s1 (map Yield (b :: bs))
             = (s2, [block] ++ flat_map (body_yields s2) (b :: bs), Exhausted)).
  { intros b bs force Hf ->. cbn [map iterate]. rewrite Hf.
    rewrite iterate_fragments_sent by exact Hsent. reflexivity. }
  induction fragments as [| b bs IH].
  - exists []. left. repeat split.
  - destruct b as [| x b].
    + destruct (Py.truthy_opt (upgrade s1)) eqn:Eu.
      * eexists. right. split.
        -- apply (fire [] bs false); [| reflexivity].
           rewrite send_headers_upgrade by exact Eu. exact H.
        -- reflexivity.
      * destruct IH as [out [(I & C1 & C2) | (I & C1)]].
        -- exists ([] :: out). left. split; [| split].
           ++ cbn [map iterate length Nat.eqb negb].
              rewrite send_headers_not_forced by exact Eu. rewrite I. reflexivity.
           ++ exact C1.
           ++ exact C2.
        -- exists ([] :: out). right. split.
           ++ cbn [map iterate length Nat.eqb negb].
              rewrite send_headers_not_forced by exact Eu. rewrite I. reflexivity.
           ++ exact C1.
    + eexists. right. split.
      * apply (fire (x :: b) bs true); [exact H | reflexivity].
      * reflexivity.
Qed.

(** X8. The bytes of a whole response. An application that calls
    [start_response] and then yields its fragments, on an instance whose
    headers are fit to send, makes [generate] end normally with the header
    block first, then the body, then the last chunk if the encoding is
    chunked, and nothing else: without chunking the body is the fragments
    as they are, with chunking it reads back as the fragments. Empty
    fragments add no byte, wherever the block comes out. *)
Theorem response_bytes (environ : list (string * string))
  (self s1 s2 : Self.t) (status : string) (items : list (string * string))
  (fragments : list bytes) (block : bytes) :
  start_response self status (HList items) None = (s1, None) ->
  send_headers s1 true = (s2, inr (Some block)) ->
  let result :=
    generate (CallStartResponse status (HList items) None :: map Yield fragments)
      environ self in
  fst (fst result) = finalize s2 /\
  snd result = None /\
  concat (snd (fst result))
  = block ++ concat (flat_map (body_yields s2) fragments) ++
    (if chunked s2 then chunk_encoding [] else []) /\
  (chunked s2 = false -> concat (snd (fst result)) = block ++ concat fragments) /\
  (chunked s2 = true ->
   exists body,
     concat (snd (fst result)) = block ++ body /\
     forall rest,
       ChunkedReader.decode (body ++ rest) = Some (concat fragments, rest)).
Proof.
  intros Hstart Hsend result.
  destruct (send_headers_block s1 s2 true block Hsend) as (_ & Hs & Ht & _ & _ & _).
  assert (Hsent : Py.truthy_bytes (Self._headers_sent s2) = true)
    by (rewrite Hs; exact Ht).
  assert (R : fst (fst result) = finalize s2 /\ snd result = None /\
              concat (snd (fst result))
              = block ++ concat (flat_map (body_yields s2) fragments) ++
                (if chunked s2 then chunk_encoding [] else [])).
  { subst result. unfold generate, generate_turn. cbn [iterate].
    rewrite Hstart.
    destruct (iterate_fragments s1 s2 block Hsend fragments)
      as [out [(I & C1 & C2) | (I & C1)]]; rewrite I.
    - rewrite Hsend. cbn [fst snd head_yield].
      repeat split. rewrite !concat_app, C1, C2.
      destruct (chunked s2); cbn [concat app]; rewrite ?app_nil_r; reflexivity.
    - rewrite send_headers_sent by exact Hsent. cbn [fst snd head_yield].
      repeat split. rewrite !concat_app, C1, <- app_assoc.
      destruct (chunked s2); cbn [concat app]; rewrite ?app_nil_r; reflexivity. }
  destruct R as (R1 & R2 & R3).
  split; [exact R1 | split; [exact R2 | split; [exact R3 | split]]].
  - intros Hc. rewrite R3, Hc, body_yields_raw by exact Hc.
    cbn [concat]. rewrite app_nil_r. reflexivity.
  - intros Hc. rewrite R3, Hc.
    exists (concat (flat_map (body_yields s2) fragments) ++ concat [chunk_encoding []]).
    split; [reflexivity |].
    intros rest. rewrite body_yields_chunked by exact Hc.
    cbn [concat]. rewrite app_nil_r, <- app_assoc. apply decode_chunks.
Qed.


(** ** How a cycle ends *)

Lemma iterate_finished (iterable : list app_step) (self : Self.t) :
  Self.finished (fst (fst (iterate self iterable))) = Self.finished self.
Proof. apply iterate_frame; reflexivity. Qed.

Lemma iterate_connection_closed (iterable : list app_step) (self : Self.t) :
  Self.connection_closed (fst (fst (iterate self iterable)))
  = Self.connection_closed self.
Proof. apply iterate_frame; reflexivity. Qed.

Lemma send_headers_finished (self : Self.t) (force : bool) :
  Self.finished (fst (send_headers self force)) = Self.finished self.
Proof. apply send_headers_frame; reflexivity. Qed.

Lemma send_headers_connection_closed (self : Self.t) (force : bool) :
  Self.connection_closed (fst (send_headers self force))
  = Self.connection_closed self.
Proof. apply send_headers_frame; reflexivity. Qed.

Lemma start_response_end (self : Self.t) (status : string)
  (response_headers : header_arg) (exc_info : option exn) :
  Self.keep_alive (fst (start_response self status response_headers exc_info))
  = Self.keep_alive self /\
  Self.finished (fst (start_response self status response_headers exc_info))
  = Self.finished self /\
  Self.connection_closed
    (fst (start_response self status response_headers exc_info))
  = Self.connection_closed self.
Proof. repeat split; apply start_response_frame; reflexivity. Qed.

Lemma finalize_facts (self : Self.t) :
  Self.keep_alive (finalize self) = Self.keep_alive self /\
  Self.finished (finalize self) = true /\
  Self.connection_closed (finalize self)
  = Self.connection_closed self || negb (Self.keep_alive self).
Proof.
  unfold finalize. destruct (Self.keep_alive self) eqn:K; cbn.
  - rewrite K, Bool.orb_false_r. repeat split.
  - rewrite K, Bool.orb_true_r. repeat split.
Qed.

(** What one turn of the loop does to keep-alive, to the connection and
    to the finished mark. *)
Lemma generate_turn_end (wsgi_callable iterable : list app_step)
  (environ : list (string * string)) (self : Self.t) (exc_info : option exn) :
  match generate_turn wsgi_callable environ self exc_info iterable with
  | Break s _ None =>
      (Self.keep_alive s = true -> Self.keep_alive self = true) /\
      Self.finished s = true /\
      Self.connection_closed s
      = Self.connection_closed self || negb (Self.keep_alive s)
  | Break s _ (Some _) | Continue s _ _ _ =>
      (Self.keep_alive s = true -> Self.keep_alive self = true) /\
      Self.finished s = Self.finished self /\
      Self.connection_closed s = Self.connection_closed self
  end.
Proof.
  unfold generate_turn.
  match goal with
  | |- context [iterate self ?it] =>
      pose proof (iterate_keep_alive it self) as K;
      pose proof (iterate_finished it self) as F;
      pose proof (iterate_connection_closed it self) as C;
      destruct (iterate self it) as [[s out] [| e]]
  end; cbn [fst] in K, F, C.
  - pose proof (send_headers_keep_alive s true) as K1.
    pose proof (send_headers_finished s true) as F1.
    pose proof (send_headers_connection_closed s true) as C1.
    destruct (send_headers s true) as [s' [e | head]]; cbn [fst] in K1, F1, C1.
    + repeat split; congruence.
    + destruct (finalize_facts s') as (A & B & D).
      rewrite A, B, D. repeat split; congruence.
  - destruct ((match exc_info with Some _ => true | None => false end)
              || Py.truthy_bytes (Self._headers_sent s)).
    + destruct (finalize_facts (Self.with_keep_alive false s)) as (A & B & D).
      rewrite A, B, D. cbn. rewrite C.
      repeat split. discriminate.
    + unfold call_response.
      match goal with
      | |- context [start_response ?s0 ?st ?hs ?ex] =>
          destruct (start_response_end s0 st hs ex) as (K1 & F1 & C1);
          destruct (start_response s0 st hs ex) as [s' [e' |]]
      end; cbn [fst] in K1, F1, C1; rewrite K1, F1, C1;
        match goal with
        | |- context [if ?c then _ else _] => destruct c
        end; cbn; repeat split; congruence.
Qed.

(** X9. How [generate] ends. It never turns keep-alive on: if the
    connection is kept alive at the end, it was before. When no exception
    leaves the generator, the exchange is marked finished and the
    connection is closed exactly when keep-alive is off (or it was closed
    already). When an exception leaves it, the end of [generate] is not
    reached: the connection is not closed and the exchange is not marked
    finished by this call. *)
Theorem generate_end (wsgi_callable : list app_step)
  (environ : list (string * string)) (self : Self.t) :
  let result := generate wsgi_callable environ self in
  (Self.keep_alive (fst (fst result)) = true -> Self.keep_alive self = true) /\
  (snd result = None ->
   Self.finished (fst (fst result)) = true /\
   Self.connection_closed (fst (fst result))
   = Self.connection_closed self || negb (Self.keep_alive (fst (fst result)))) /\
  (snd result <> None ->
   Self.finished (fst (fst result)) = Self.finished self /\
   Self.connection_closed (fst (fst result)) = Self.connection_closed self).
Proof.
  cbv zeta. unfold generate.
  pose proof (generate_turn_end wsgi_callable [] environ self None) as T1.
  destruct (generate_turn wsgi_callable environ self None [])
    as [s out [e |] | s out e it]; cbn [fst snd].
  - destruct T1 as (A & B & C). repeat split; try congruence. exact A.
  - destruct T1 as (A & B & C). repeat split; try congruence. exact A.
  - destruct T1 as (A & B & C).
    pose proof (generate_turn_end wsgi_callable it environ s (Some e)) as T2.
    destruct (generate_turn_second wsgi_callable it environ s e)
      as (s' & out' & esc & E).
    rewrite E in *. cbn [fst snd].
    destruct esc as [e' |]; destruct T2 as (A2 & B2 & C2);
      repeat split; try congruence; auto.
Qed.

Lemma iterate_empty_fragments (self : Self.t) (k : nat) :
  Py.truthy_opt (upgrade self) = false ->
  iterate self (repeat (Yield []) k) = (self, repeat [] k, Exhausted).
Proof.
  intros H. induction k as [| k IH]; [reflexivity |].
  cbn [repeat iterate length Nat.eqb negb].
  rewrite send_headers_not_forced by exact H. rewrite IH. reflexivity.
Qed.

(** X10. An application that never calls [start_response]. If it yields
    nothing, or empty fragments only, the forced header step at the end
    raises [HttpException] outside the handler of [generate]: the exception
    leaves the generator and the instance is as it was, neither closed nor
    finished. If it yields data, the header step raises inside the
    handler, and the cycle goes on exactly as for an application that
    raised that exception itself. *)
Theorem response_without_status (environ : list (string * string))
  (self : Self.t) :
  Py.truthy_opt (Self._status self) = false ->
  Py.truthy_bytes (Self._headers_sent self) = false ->
  (Py.truthy_opt (upgrade self) = false ->
   forall k,
     generate (repeat (Yield []) k) environ self
     = (self, repeat [] k, Some (HttpException "Headers not set."))) /\
  (forall x b rest,
      generate (Yield (x :: b) :: rest) environ self
      = generate [Raise (HttpException "Headers not set.")] environ self).
Proof.
  intros Hst Hs.
  assert (forced : send_headers self true
                   = (self, inl (HttpException "Headers not set."))).
  { unfold send_headers, get_headers_to_send.
    rewrite Hs, Hst, Bool.orb_true_r. reflexivity. }
  split.
  - intros Hu k. unfold generate, generate_turn.
    rewrite iterate_empty_fragments by exact Hu. rewrite forced. reflexivity.
  - intros x b rest. unfold generate, generate_turn.
    cbn [iterate length Nat.eqb negb]. rewrite forced. reflexivity.
Qed.

Lemma iterate_stops (pre : list app_step) (e : exn) (rest : list app_step) :
  forall self,
    iterate self (pre ++ Raise e :: rest) = iterate self (pre ++ [Raise e]).
Proof.
  induction pre as [| step pre IH]; intros self; [reflexivity |].
  destruct step as [status hs exc | b | e0]; cbn [app iterate].
  - destruct (start_response self status hs exc) as [s [e1 |]];
      [reflexivity | apply IH].
  - destruct (send_headers self (negb (Nat.eqb (length b) 0))) as [s [e1 | head]];
      [reflexivity |].
    rewrite IH. reflexivity.
  - reflexivity.
Qed.

(** A script of application steps stands for one run of the application:
    whatever follows a [Raise] in it changes neither the bytes yielded nor
    the instance, in the iteration and in the whole of [generate]. *)
Theorem nothing_runs_after_raise (environ : list (string * string))
  (self : Self.t) (pre : list app_step) (e : exn) (rest : list app_step) :
  iterate self (pre ++ Raise e :: rest) = iterate self (pre ++ [Raise e]) /\
  generate (pre ++ Raise e :: rest) environ self
  = generate (pre ++ [Raise e]) environ self /\
  exists s out e',
    iterate self (pre ++ Raise e :: rest) = (s, out, Raised e').
Proof.
  split; [apply iterate_stops | split].
  - unfold generate, generate_turn. rewrite iterate_stops. reflexivity.
  - revert self. induction pre as [| step pre IH]; intros self.
    + cbn. eauto.
    + destruct step as [status hs exc | b | e0]; cbn [app iterate].
      * destruct (start_response self status hs exc) as [s [e1 |]]; eauto.
      * destruct (send_headers self (negb (Nat.eqb (length b) 0)))
          as [s [e1 | head]]; eauto.
        destruct (IH s) as (s' & out & e' & E). rewrite E. eauto.
      * eauto.
Qed.


(** ** More of the environ *)







(** X13. The [Server] and [Date] response headers are the server's own
    when [wsgi_environ] returns: each has the single value the server
    gives it, whatever the client sent under these names. *)
Theorem server_and_date_headers (self self' : Self.t)
  (env : list (string * string)) :
  wsgi_environ self = inr (self', env) ->
  Headers.get_all (Self.headers self') "Server" = [SERVER_SOFTWARE] /\
  Headers.get_all (Self.headers self') "Date" = [date_now].
Proof.
  unfold wsgi_environ.
  destruct (Self._request_headers self); [| discriminate].
  intros H. injection H as <- _.
  cbn [Self.headers Self.with_headers Self.with_keep_alive].
  unfold Headers.update. cbn [fold_left fst snd].
  rewrite !get_all_set. split; reflexivity.
Qed.

Lemma split_length (c : ascii) (s : string) : 1 <= length (Py.split c s).
Proof.
  destruct s as [| x s]; cbn [Py.split]; [simpl; lia |].
  destruct (Ascii.eqb x c); [simpl; lia |].
  destruct (Py.split c s); simpl; lia.
Qed.

(** X14. The indexing in the remote-address code is always in range:
    [remote] has at least two items, so [remote[0]] and [remote[1]] exist
    for every forwarding value and every peer address, and where the value
    has a comma [rsplit(",", 1)] has exactly two items, so its item [1]
    exists. *)
Theorem remote_indexing_in_range :
  (forall forward, 2 <= length (remote forward)) /\
  (forall value,
      Py.contains "," value = true ->
      length (Py.rsplit1 "," value) = 2).
Proof.
  split.
  - intros [value | [host port]]; [| simpl; lia].
    unfold remote.
    match goal with
    | |- context [Py.split ":" ?hop] =>
        pose proof (split_length ":" hop) as L;
        destruct (Nat.ltb_spec (length (Py.split ":" hop)) 2) as [Lt | Ge]
    end.
    + rewrite length_app. simpl. lia.
    + exact Ge.
  - intros value H. destruct (split_sep "," value H) as (a & b & rest & E).
    unfold Py.rsplit1. rewrite E.
    assert (R : a :: b :: rest = rev (rev (a :: b :: rest)))
      by (symmetry; apply rev_involutive).
    destruct (rev (a :: b :: rest)) as [| x [| y zs]];
      [discriminate | discriminate | reflexivity].
Qed.


(** ** Chunk count, and the keep-alive decision again *)

Lemma ceil_div_step (m n : nat) :
  0 < m -> m <= n -> (n + m - 1) / m = S ((n - m + m - 1) / m).
Proof.
  intros Hm Hn.
  replace (n + m - 1) with ((n - m + m - 1) + 1 * m) by lia.
  rewrite Nat.div_add by lia. lia.
Qed.

Lemma ceil_div_small (m n : nat) :
  0 < n -> n < m -> (n + m - 1) / m = 1.
Proof.
  intros Hn Hm. symmetry.
  apply (Nat.div_unique (n + m - 1) m 1 (n - 1)); lia.
Qed.

(** X15. A fragment of [n] bytes is sent in the least number of chunks
    that [MAX_CHUNK_SIZE] allows, [n] divided by [MAX_CHUNK_SIZE] rounded
    up. In particular a fragment of exactly [MAX_CHUNK_SIZE] bytes goes in
    one chunk, with no empty chunk after it that would end the body. *)
Theorem chunks_count (b : bytes) :
  length (chunks b) = (length b + MAX_CHUNK_SIZE - 1) / MAX_CHUNK_SIZE /\
  (length b = MAX_CHUNK_SIZE -> chunks b = [chunk_encoding b]).
Proof.
  pose proof MAX_CHUNK_SIZE_pos as Hpos.
  split.
  - remember (length b) as n eqn:Hn. revert b Hn.
    induction n as [n IH] using lt_wf_ind. intros b ->.
    rewrite chunks_equation_1.
    destruct (le_lt_dec MAX_CHUNK_SIZE (length b)) as [Hle | Hlt];
      cbn [chunks_unfold_clause_1].
    + cbn [length].
      rewrite (IH (length (skipn MAX_CHUNK_SIZE b))) with (b := skipn MAX_CHUNK_SIZE b);
        [| rewrite length_skipn; lia | reflexivity].
      rewrite length_skipn. symmetry. apply ceil_div_step; assumption.
    + destruct b as [| x b].
      * cbn [length]. symmetry. apply Nat.div_small. lia.
      * symmetry. apply ceil_div_small; [simpl; lia | exact Hlt].
  - intros Hb. rewrite chunks_equation_1.
    destruct (le_lt_dec MAX_CHUNK_SIZE (length b)) as [Hle | Hlt];
      cbn [chunks_unfold_clause_1]; [| lia].
    rewrite <- Hb at 1 2. rewrite firstn_all, skipn_all, chunks_nil.
    reflexivity.
Qed.

Lemma pop_pop (h : Headers.t) (name : string) :
  Headers.pop (Headers.pop h name) name = Headers.pop h name.
Proof.
  unfold Headers.pop. induction h as [| p h IH]; [reflexivity |].
  cbn [filter]. destruct (negb (Headers.named name p)) eqn:E; [| exact IH].
  cbn [filter]. rewrite E, IH. reflexivity.
Qed.

Lemma set_set (h : Headers.t) (name value : string) :
  Headers.set (Headers.set h name value) name value = Headers.set h name value.
Proof.
  unfold Headers.set, Headers.add_header. f_equal.
  unfold Headers.pop at 1. rewrite filter_app.
  fold (Headers.pop (Headers.pop h name) name). rewrite pop_pop.
  cbn [filter]. unfold Headers.named, Headers.same_name. cbn [fst].
  rewrite String.eqb_refl. cbn [negb]. apply app_nil_r.
Qed.

(** X16. The keep-alive decision is stable: [keep_alive] applied to the
    headers it has just left gives the same decision and leaves the same
    headers, so the [connection] header it sets never flips the decision
    that set it. *)
Theorem keep_alive_stable (headers : Headers.t) (version : nat * nat) :
  keep_alive (fst (keep_alive headers version)) version
  = keep_alive headers version.
Proof.
  unfold keep_alive at 2 3.
  destruct (mem "close" (map Py.lower (Headers.get_all headers "connection")))
    eqn:Ec.
  { cbn [fst]. unfold keep_alive. rewrite Ec. reflexivity. }
  destruct (mem "upgrade" (map Py.lower (Headers.get_all headers "connection")))
    eqn:Eu.
  { cbn [fst]. unfold keep_alive. rewrite get_all_set_same, set_set.
    reflexivity. }
  destruct (mem "keep-alive" (map Py.lower (Headers.get_all headers "connection")))
    eqn:Ek.
  { cbn [fst]. unfold keep_alive. rewrite Ec, Eu, Ek. reflexivity. }
  destruct ((fst version =? 1)%nat && (snd version =? 1)%nat) eqn:Ev.
  { cbn [fst]. unfold keep_alive. rewrite get_all_set_same. reflexivity. }
  cbn [fst]. unfold keep_alive. rewrite Ec, Eu, Ek, Ev. reflexivity.
Qed.

End HttpServerResponse.

(** * Properties of the application handlers *)

Section HandlerProperties.

Variable Route : Type.
Variable route_match : Route -> string -> option (list (string * string)).

Lemma first_response_app (pre rest : list Handlers.Middleware)
  (environ : list (string * string)) :
  Forall (fun m => m environ = None) pre ->
  Handlers.first_response (pre ++ rest) environ
  = Handlers.first_response rest environ.
Proof.
  induction 1 as [| m pre Hm _ IH]; [reflexivity |].
  cbn [app Handlers.first_response]. rewrite Hm. exact IH.
Qed.

Lemma first_response_none (ms : list Handlers.Middleware)
  (environ : list (string * string)) :
  Handlers.first_response ms environ = None <->
  Forall (fun m => m environ = None) ms.
Proof.
  induction ms as [| m ms IH]; cbn [Handlers.first_response].
  - split; [constructor | reflexivity].
  - destruct (m environ) eqn:E.
    + split; [discriminate |]. intros H. inversion H; congruence.
    + rewrite IH. split; [constructor; assumption |].
      intros H. inversion H; assumption.
Qed.

(** X17. [WsgiHandler.__call__] gives the answer of the first middleware,
    in list order, that does not return [None], whatever the middleware
    after it would return, with the handler's response middleware appended
    to the answer's own when it has a [middleware] list; and it raises
    [Http404], with the [PATH_INFO] of the environ or [/] in its place,
    exactly when every middleware returns [None]. *)
Theorem wsgi_handler_first_answer (handler : Handlers.WsgiHandler)
  (environ : list (string * string)) :
  (forall pre m post response,
      Handlers.middleware handler = pre ++ m :: post ->
      Forall (fun x => x environ = None) pre ->
      m environ = Some response ->
      Handlers.call handler environ
      = inr (match Handlers.middleware_of response with
             | Some l =>
                 {| Handlers.body := Handlers.body response;
                    Handlers.middleware_of :=
                      Some (l ++ Handlers.response_middleware handler) |}
             | None => response
             end)) /\
  (Forall (fun m => m environ = None) (Handlers.middleware handler) <->
   Handlers.call handler environ
   = inl (Handlers.Http404 (Handlers.get environ "PATH_INFO" "/"))) /\
  (Forall (fun m => m environ = None) (Handlers.middleware handler) <->
   exists e, Handlers.call handler environ = inl e).
Proof.
  split; [| split].
  - intros pre m post response Hm Hpre Hr. unfold Handlers.call.
    rewrite Hm, first_response_app by exact Hpre.
    cbn [Handlers.first_response]. rewrite Hr.
    destruct (Handlers.middleware_of response); reflexivity.
  - rewrite <- first_response_none. unfold Handlers.call.
    destruct (Handlers.first_response (Handlers.middleware handler) environ)
      as [r |]; [| split; reflexivity].
    destruct (Handlers.middleware_of r); split; discriminate.
  - rewrite <- first_response_none. unfold Handlers.call.
    destruct (Handlers.first_response (Handlers.middleware handler) environ)
      as [r |]; [| split; [eauto | reflexivity]].
    destruct (Handlers.middleware_of r); split;
      try discriminate; intros [e H]; discriminate.
Qed.

(** X18. What [Router.resolve] returns is sound: the handler is a router
    of the tree, its own route matches the whole path, the arguments are
    that match, and the match leaves no remainder. *)
Theorem resolve_sound :
  forall (r : Handlers.Router Route) (path : string)
         (handler : Handlers.Router Route) (args : list (string * string)),
    Handlers.resolve route_match r path = Some (handler, args) ->
    In handler (Handlers.routers r) /\
    route_match (Handlers.route_of handler) path = Some args /\
    Handlers.has_key args "__remaining__" = false.
Proof.
  fix IH 1. intros [route routes] path handler args.
  cbn [Handlers.resolve Handlers.routers].
  destruct (route_match route path) as [m |] eqn:Em; [| discriminate].
  destruct (Handlers.has_key m "__remaining__") eqn:Ek.
  - intros H.
    enough (G : In handler
                  ((fix all (l : list (Handlers.Router Route)) :=
                      match l with
                      | [] => []
                      | c :: rest => Handlers.routers c ++ all rest
                      end) routes) /\
                route_match (Handlers.route_of handler) path = Some args /\
                Handlers.has_key args "__remaining__" = false).
    { destruct G as (A & B & C). split; [right; exact A | split; assumption]. }
    revert H. induction routes as [| c cs IHcs]; [discriminate |].
    destruct (Handlers.resolve route_match c path) as [v |] eqn:Ec.
    + intros H. injection H as ->.
      destruct (IH c path handler args Ec) as (A & B & C).
      split; [apply in_or_app; left; exact A | split; assumption].
    + intros H. destruct (IHcs H) as (A & B & C).
      split; [apply in_or_app; right; exact A | split; assumption].
  - intros H. injection H as <- <-.
    split; [left; reflexivity | split; [exact Em | exact Ek]].
Qed.

Lemma resolve_children (route : Route) (path : string)
  (m : list (string * string)) (routes : list (Handlers.Router Route)) :
  route_match route path = Some m ->
  Handlers.has_key m "__remaining__" = true ->
  (forall pre c post v,
      routes = pre ++ c :: post ->
      Forall (fun x => Handlers.resolve route_match x path = None) pre ->
      Handlers.resolve route_match c path = Some v ->
      Handlers.resolve route_match (Handlers.Node route routes) path = Some v) /\
  (Forall (fun x => Handlers.resolve route_match x path = None) routes ->
   Handlers.resolve route_match (Handlers.Node route routes) path = None).
Proof.
  intros Em Ek. cbn [Handlers.resolve]. rewrite Em, Ek. split.
  - intros pre c post v -> Hpre Hc.
    induction Hpre as [| x pre Hx _ IHpre]; cbn [app].
    + rewrite Hc. reflexivity.
    + rewrite Hx. exact IHpre.
  - induction 1 as [| x xs Hx _ IHxs]; [reflexivity |].
    rewrite Hx. exact IHxs.
Qed.

(** X19. How [Router.resolve] chooses. A router whose route does not match
    resolves nothing, whatever its children. A match without remainder
    resolves to the router itself, its children unasked. A match with a
    remainder hands the same path to the children in order and takes the
    answer of the first child that resolves it; when no child does, the
    path is not resolved although the router's own route matched. *)
Theorem resolve_order (route : Route) (routes : list (Handlers.Router Route))
  (path : string) :
  (route_match route path = None ->
   Handlers.resolve route_match (Handlers.Node route routes) path = None) /\
  (forall m,
      route_match route path = Some m ->
      Handlers.has_key m "__remaining__" = false ->
      Handlers.resolve route_match (Handlers.Node route routes) path
      = Some (Handlers.Node route routes, m)) /\
  (forall m pre c post v,
      route_match route path = Some m ->
      Handlers.has_key m "__remaining__" = true ->
      routes = pre ++ c :: post ->
      Forall (fun x => Handlers.resolve route_match x path = None) pre ->
      Handlers.resolve route_match c path = Some v ->
      Handlers.resolve route_match (Handlers.Node route routes) path = Some v) /\
  (forall m,
      route_match route path = Some m ->
      Handlers.has_key m "__remaining__" = true ->
      Forall (fun x => Handlers.resolve route_match x path = None) routes ->
      Handlers.resolve route_match (Handlers.Node route routes) path = None).
Proof.
  split; [| split; [| split]].
  - intros E. cbn [Handlers.resolve]. rewrite E. reflexivity.
  - intros m E K. cbn [Handlers.resolve]. rewrite E, K. reflexivity.
  - intros m pre c post v E K. apply (resolve_children route path m routes E K).
  - intros m E K. apply (resolve_children route path m routes E K).
Qed.

End HandlerProperties.


(** * The properties at work, and where the specification departs *)

(** The body of scenario A of the specification, with an empty fragment in
    between, written in chunks and read back. *)
Lemma chunked_round_trip_witness :
  ChunkedReader.decode
    (concat (flat_map
               (body_yields (Sample.response (1, 1) "200 OK"
                               [("Transfer-Encoding", "chunked")]))
               [Py.encode "hello"; []; Py.encode " world"]) ++
     chunk_encoding [] ++ [])
  = Some (Py.encode "hello world", []).
Proof.
  apply (proj2 (proj2 (chunked_round_trip
                         [Py.encode "hello"; []; Py.encode " world"] []))).
  reflexivity.
Defined.



(** [keep_alive] on close, Upgrade, keep-alive and the HTTP/1.1 and
    HTTP/1.0 defaults. *)
Lemma keep_alive_table_witness :
  keep_alive [("connection", "Close")] (1, 1)
  = ([("connection", "Close")], false) /\
  (snd (keep_alive [("connection", "upgrade")] (1, 0)) = true /\
   Headers.get_all (fst (keep_alive [("connection", "upgrade")] (1, 0)))
     "connection" = ["Upgrade"]) /\
  keep_alive [("connection", "Keep-Alive")] (1, 0)
  = ([("connection", "Keep-Alive")], true) /\
  (snd (keep_alive [] (1, 1)) = true /\
   Headers.get_all (fst (keep_alive [] (1, 1))) "connection" = ["keep-alive"]) /\
  keep_alive [] (1, 0) = ([], false).
Proof.
  split; [| split; [| split; [| split]]].
  - apply (proj1 (keep_alive_table [("connection", "Close")] (1, 1))).
    reflexivity.
  - destruct (proj1 (proj2 (keep_alive_table [("connection", "upgrade")] (1, 0)))
                eq_refl eq_refl) as (A & B & _).
    split; [exact A | exact B].
  - apply (proj1 (proj2 (proj2
             (keep_alive_table [("connection", "Keep-Alive")] (1, 0)))));
      reflexivity.
  - destruct (proj1 (proj2 (proj2 (proj2 (keep_alive_table [] (1, 1)))))
                eq_refl eq_refl eq_refl eq_refl) as (A & B & _).
    split; [exact A | exact B].
  - apply (proj2 (proj2 (proj2 (proj2 (keep_alive_table [] (1, 0))))));
      try reflexivity. discriminate.
Defined.

(** C2 fails as stated: for a version later than 1.1 and no connection
    token, the table of the specification keeps the connection alive and
    [keep_alive] does not. *)
Lemma keep_alive_later_version_counterexample :
  KeepAliveSpec.version_1_1_or_later (1, 2) = true /\
  map Py.lower (Headers.get_all [] "connection") = [] /\
  KeepAliveSpec.decide [] (1, 2) = (true, Some "keep-alive") /\
  keep_alive [] (1, 2) = ([], false) /\
  snd (keep_alive [] (1, 2)) <> fst (KeepAliveSpec.decide [] (1, 2)).
Proof.
  repeat split. discriminate.
Defined.


(** Three empty fragments before a status is even set: three empty byte
    strings, and the instance is as it was. *)
Lemma empty_fragment_sends_no_headers_witness :
  iterate Sample.HOP_HEADERS Sample.Headers_bool (Sample.fresh (1, 1))
    (repeat (Yield []) 3 ++ [])
  = (Sample.fresh (1, 1), [[]; []; []], Exhausted).
Proof.
  destruct (proj1 (proj2 (empty_fragment_sends_no_headers
              Sample.HOP_HEADERS Sample.Headers_bool (Sample.fresh (1, 1))))
              eq_refl 3 []) as [A _].
  exact A.
Defined.

(** An application that fails after its first fragment went out. *)
Lemma raise_after_headers_sent_witness :
  let app := [CallStartResponse "200 OK" (HList []) None;
              Yield (Py.encode "hello"); Raise (AppError 7);
              Yield (Py.encode "never")] in
  let result := generate Sample.HOP_HEADERS Sample.REDIRECT_CODES
                  Sample.Headers_bool Sample.handle_wsgi_error app []
                  (Sample.fresh (1, 1)) in
  map string_of_list_byte (skipn 1 (snd (fst result)))
  = [string_of_list_byte (chunk_encoding (Py.encode "hello"))] /\
  Self.keep_alive (fst (fst result)) = false /\
  Self.connection_closed (fst (fst result)) = true.
Proof.
  cbv zeta.
  pose proof (raise_after_headers_sent Sample.HOP_HEADERS Sample.REDIRECT_CODES
                Sample.Headers_bool Sample.handle_wsgi_error
                [CallStartResponse "200 OK" (HList []) None;
                 Yield (Py.encode "hello"); Raise (AppError 7);
                 Yield (Py.encode "never")] [] (Sample.fresh (1, 1))
                (fst (fst (iterate Sample.HOP_HEADERS Sample.Headers_bool
                             (Sample.fresh (1, 1))
                             [CallStartResponse "200 OK" (HList []) None;
                              Yield (Py.encode "hello"); Raise (AppError 7);
                              Yield (Py.encode "never")])))
                (snd (fst (iterate Sample.HOP_HEADERS Sample.Headers_bool
                             (Sample.fresh (1, 1))
                             [CallStartResponse "200 OK" (HList []) None;
                              Yield (Py.encode "hello"); Raise (AppError 7);
                              Yield (Py.encode "never")])))
                (AppError 7)) as H.
  cbv zeta in H.
  destruct H as (_ & A & B & C & _).
  - vm_compute. reflexivity.
  - vm_compute. reflexivity.
  - split; [| split; [exact B | exact C]].
    rewrite A. vm_compute. reflexivity.
Defined.

(** An application that fails at once, and a substitute whose own body
    fails before any header is sent: the cycle ends there, with nothing
    yielded and the connection closed. *)
Lemma substitute_once_witness :
  let result := generate Sample.HOP_HEADERS Sample.REDIRECT_CODES
                  Sample.Headers_bool Sample.handle_wsgi_error
                  [Raise (AppError 1)] [] (Sample.fresh (1, 1)) in
  generate_loop Sample.HOP_HEADERS Sample.REDIRECT_CODES Sample.Headers_bool
    Sample.handle_wsgi_error 2 [Raise (AppError 1)] [] (Sample.fresh (1, 1))
    None [] = Some result /\
  snd (fst result) = [] /\
  Self._headers_sent (fst (fst result)) = None /\
  Self.keep_alive (fst (fst result)) = false /\
  Self.connection_closed (fst (fst result)) = true.
Proof.
  cbv zeta.
  pose proof (substitute_once Sample.HOP_HEADERS Sample.REDIRECT_CODES
                Sample.Headers_bool Sample.handle_wsgi_error
                [Raise (AppError 1)] [] (Sample.fresh (1, 1))
                (Sample.fresh (1, 1)) [] (AppError 1) eq_refl eq_refl) as H.
  cbv zeta in H. destruct H as (_ & _ & L & F & _).
  split; [exact (L 0) |].
  match type of F with
  | forall s o e, iterate ?hop ?hb ?s3 ?c = _ -> _ =>
      destruct (F (fst (fst (iterate hop hb s3 c))) [] (AppError 2))
        as (E & K & C)
  end.
  - vm_compute. reflexivity.
  - rewrite E. split; [reflexivity |]. split; [vm_compute; reflexivity |].
    split; reflexivity.
Defined.






(** * The further properties at work *)

(** A forced header step, then another. *)
Lemma header_block_sent_once_witness :
  let first := send_headers Sample.Headers_bool
                 (Sample.response (1, 1) "200 OK" [("Content-Type", "text/plain")])
                 true in
  Self._headers_sent (fst first)
  = Some (Headers.flat
            [("Content-Type", "text/plain"); ("Transfer-Encoding", "chunked");
             ("connection", "close")] (1, 1) "200 OK") /\
  send_headers Sample.Headers_bool (fst first) true = (fst first, inr None).
Proof.
  cbv zeta.
  destruct (header_block_sent_once Sample.Headers_bool
              (Sample.response (1, 1) "200 OK" [("Content-Type", "text/plain")])
              (fst (send_headers Sample.Headers_bool
                      (Sample.response (1, 1) "200 OK"
                         [("Content-Type", "text/plain")]) true))
              true
              (Headers.flat
                 [("Content-Type", "text/plain"); ("Transfer-Encoding", "chunked");
                  ("connection", "close")] (1, 1) "200 OK"))
    as (_ & A & B).
  - vm_compute. reflexivity.
  - split; [exact A | apply B].
Defined.

(** Two writes of data after [start_response]. *)
Lemma write_sends_block_once_witness :
  let self := Sample.response (1, 1) "200 OK" [("Content-Length", "11")] in
  let block := Headers.flat [("Content-Length", "11"); ("connection", "close")]
                 (1, 1) "200 OK" in
  Self.transport
    (fst (write Sample.Headers_bool
            (fst (write Sample.Headers_bool self (Py.encode "hello")))
            (Py.encode " world")))
  = [block; Py.encode "hello"; Py.encode " world"].
Proof.
  cbv zeta.
  destruct (write_sends_block_once Sample.Headers_bool
              (Sample.response (1, 1) "200 OK" [("Content-Length", "11")])
              (fst (send_headers Sample.Headers_bool
                      (Sample.response (1, 1) "200 OK" [("Content-Length", "11")])
                      true))
              (Headers.flat [("Content-Length", "11"); ("connection", "close")]
                 (1, 1) "200 OK")
              (Py.encode "hello") (Py.encode " world"))
    as (_ & _ & _ & A & _).
  - discriminate.
  - discriminate.
  - vm_compute. reflexivity.
  - exact A.
Defined.

(** A write of nothing, and a write of data before any status. *)
Lemma write_edge_cases_witness :
  write Sample.Headers_bool (Sample.fresh (1, 1)) []
  = (Sample.fresh (1, 1), None) /\
  write Sample.Headers_bool (Sample.fresh (1, 1)) (Py.encode "hello")
  = (Sample.fresh (1, 1), Some (HttpException "Headers not set.")).
Proof.
  split.
  - apply (proj1 (write_edge_cases Sample.Headers_bool (Sample.fresh (1, 1)))).
    reflexivity.
  - apply (proj2 (write_edge_cases Sample.Headers_bool (Sample.fresh (1, 1))));
      [discriminate | reflexivity | reflexivity].
Defined.

(** After the block, a late [start_response] with [exc_info] raises and an
    application that tries it changes nothing. *)
Lemma frozen_after_headers_sent_witness :
  let sent := fst (send_headers Sample.Headers_bool
                     (Sample.response (1, 1) "200 OK" []) true) in
  snd (start_response Sample.HOP_HEADERS sent "500 Internal Server Error"
         (HList [("X-Late", "1")]) (Some (AppError 1))) <> None /\
  fst (fst (iterate Sample.HOP_HEADERS Sample.Headers_bool sent
              [Yield (Py.encode "a");
               CallStartResponse "404 Not Found" (HList []) None;
               Yield (Py.encode "b")])) = sent.
Proof.
  cbv zeta.
  destruct (frozen_after_headers_sent Sample.HOP_HEADERS Sample.Headers_bool
              (Sample.response (1, 1) "200 OK" [])
              (fst (send_headers Sample.Headers_bool
                      (Sample.response (1, 1) "200 OK" []) true))
              true
              (Headers.flat [("Transfer-Encoding", "chunked"); ("connection", "close")]
                 (1, 1) "200 OK"))
    as (A & B).
  - vm_compute. reflexivity.
  - split; [apply A | apply B].
Defined.

(** An application that declared both a length and chunked encoding, on a
    connection that is not kept alive. *)
Lemma headers_normalized_witness :
  let self := Sample.response (1, 1) "200 OK"
                [("Content-Length", "11"); ("Transfer-Encoding", "chunked");
                 ("X-Powered-By", "pulsar")] in
  let h := [("X-Powered-By", "pulsar"); ("Transfer-Encoding", "chunked");
            ("connection", "close")] in
  get_headers_to_send self true = (Self.with_headers h self, inr (Some h)) /\
  Headers.get_all h "Content-Length" = [] /\
  Headers.get_all h "connection" = ["close"].
Proof.
  cbv zeta. split; [vm_compute; reflexivity |].
  destruct (headers_normalized
              (Sample.response (1, 1) "200 OK"
                 [("Content-Length", "11"); ("Transfer-Encoding", "chunked");
                  ("X-Powered-By", "pulsar")])
              (Self.with_headers
                 [("X-Powered-By", "pulsar"); ("Transfer-Encoding", "chunked");
                  ("connection", "close")]
                 (Sample.response (1, 1) "200 OK"
                    [("Content-Length", "11"); ("Transfer-Encoding", "chunked");
                     ("X-Powered-By", "pulsar")]))
              true
              [("X-Powered-By", "pulsar"); ("Transfer-Encoding", "chunked");
               ("connection", "close")])
    as (_ & A & _ & _ & B & _).
  - vm_compute. reflexivity.
  - split; [apply A; reflexivity | apply B; reflexivity].
Defined.

(** A response with a declared length is not chunked, in the headers and
    in the body alike. *)
Lemma chunked_as_announced_witness :
  let self := Sample.response (1, 1) "200 OK" [("Content-Length", "11")] in
  chunked (fst (send_headers Sample.Headers_bool self true)) = false /\
  body_yields (fst (send_headers Sample.Headers_bool self true))
    (Py.encode "hello") = [Py.encode "hello"].
Proof.
  cbv zeta.
  destruct (chunked_as_announced Sample.Headers_bool
              (Sample.response (1, 1) "200 OK" [("Content-Length", "11")])
              (fst (send_headers Sample.Headers_bool
                      (Sample.response (1, 1) "200 OK" [("Content-Length", "11")])
                      true))
              true
              (Headers.flat [("Content-Length", "11"); ("connection", "close")]
                 (1, 1) "200 OK"))
    as (_ & A & _ & _).
  - vm_compute. reflexivity.
  - assert (C : chunked (fst (send_headers Sample.Headers_bool
                    (Sample.response (1, 1) "200 OK" [("Content-Length", "11")])
                    true)) = false) by (apply A; reflexivity).
    split; [exact C |]. unfold body_yields. rewrite C. reflexivity.
Defined.

(** An application that tries to set [Connection] and [Upgrade] next to its
    content type. *)
Lemma start_response_filters_hop_headers_witness :
  let after := fst (start_response Sample.HOP_HEADERS (Sample.fresh (1, 1))
                      "200 OK"
                      (HList [("Connection", "keep-alive");
                              ("Content-Type", "text/plain");
                              ("Upgrade", "websocket")]) None) in
  Headers.get_all (Self.headers after) "Connection" = [] /\
  Headers.get_all (Self.headers after) "Upgrade" = [] /\
  Headers.get_all (Self.headers after) "content-type" = ["text/plain"].
Proof.
  cbv zeta.
  destruct (start_response_filters_hop_headers Sample.HOP_HEADERS
              (Sample.fresh (1, 1))
              (fst (start_response Sample.HOP_HEADERS (Sample.fresh (1, 1))
                      "200 OK"
                      (HList [("Connection", "keep-alive");
                              ("Content-Type", "text/plain");
                              ("Upgrade", "websocket")]) None))
              "200 OK"
              [("Connection", "keep-alive"); ("Content-Type", "text/plain");
               ("Upgrade", "websocket")] None)
    as (_ & A & B).
  - vm_compute. reflexivity.
  - split; [| split].
    + rewrite A by reflexivity. reflexivity.
    + rewrite A by reflexivity. reflexivity.
    + rewrite B by reflexivity. reflexivity.
Defined.

(** Scenario A of the specification, with an empty fragment first: the
    bytes after the header block read back as the body. *)
Lemma response_bytes_witness :
  let result :=
    generate Sample.HOP_HEADERS Sample.REDIRECT_CODES Sample.Headers_bool
      Sample.handle_wsgi_error
      (CallStartResponse "200 OK" (HList [("Content-Type", "text/plain")]) None
       :: map Yield [[]; Py.encode "hello"; Py.encode " world"])
      [] (Sample.fresh (1, 1)) in
  exists body,
    concat (snd (fst result))
    = Headers.flat [("Content-Type", "text/plain");
                    ("Transfer-Encoding", "chunked"); ("connection", "close")]
        (1, 1) "200 OK" ++ body /\
    ChunkedReader.decode (body ++ []) = Some (Py.encode "hello world", []).
Proof.
  cbv zeta.
  destruct (response_bytes Sample.HOP_HEADERS Sample.REDIRECT_CODES
              Sample.Headers_bool Sample.handle_wsgi_error []
              (Sample.fresh (1, 1))
              (Sample.response (1, 1) "200 OK" [("Content-Type", "text/plain")])
              (fst (send_headers Sample.Headers_bool
                      (Sample.response (1, 1) "200 OK"
                         [("Content-Type", "text/plain")]) true))
              "200 OK" [("Content-Type", "text/plain")]
              [[]; Py.encode "hello"; Py.encode " world"]
              (Headers.flat [("Content-Type", "text/plain");
                             ("Transfer-Encoding", "chunked");
                             ("connection", "close")] (1, 1) "200 OK"))
    as (_ & _ & _ & _ & A).
  - vm_compute. reflexivity.
  - vm_compute. reflexivity.
  - destruct A as (body & E & D); [vm_compute; reflexivity |].
    exists body. split; [exact E | apply D].
Defined.

(** A cycle that ends normally on a connection that is not kept alive, and
    one that an exception leaves. *)
Lemma generate_end_witness :
  let done :=
    generate Sample.HOP_HEADERS Sample.REDIRECT_CODES Sample.Headers_bool
      Sample.handle_wsgi_error
      [CallStartResponse "200 OK" (HList []) None; Yield (Py.encode "hi")]
      [] (Sample.fresh (1, 1)) in
  let broken :=
    generate Sample.HOP_HEADERS Sample.REDIRECT_CODES Sample.Headers_bool
      Sample.handle_wsgi_error [] [] (Sample.fresh (1, 1)) in
  (Self.finished (fst (fst done)) = true /\
   Self.connection_closed (fst (fst done)) = true) /\
  (Self.finished (fst (fst broken)) = false /\
   Self.connection_closed (fst (fst broken)) = false).
Proof.
  cbv zeta. split.
  - destruct (proj1 (proj2 (generate_end Sample.HOP_HEADERS Sample.REDIRECT_CODES
                Sample.Headers_bool Sample.handle_wsgi_error
                [CallStartResponse "200 OK" (HList []) None;
                 Yield (Py.encode "hi")] [] (Sample.fresh (1, 1)))))
      as (A & B).
    + vm_compute. reflexivity.
    + split; [exact A |]. rewrite B. vm_compute. reflexivity.
  - destruct (proj2 (proj2 (generate_end Sample.HOP_HEADERS Sample.REDIRECT_CODES
                Sample.Headers_bool Sample.handle_wsgi_error
                [] [] (Sample.fresh (1, 1)))))
      as (A & B).
    + vm_compute. discriminate.
    + split; [rewrite A | rewrite B]; reflexivity.
Defined.

(** An application that returns two empty fragments and no status, and one
    that yields data with no status. *)
Lemma response_without_status_witness :
  generate Sample.HOP_HEADERS Sample.REDIRECT_CODES Sample.Headers_bool
    Sample.handle_wsgi_error (repeat (Yield []) 2) [] (Sample.fresh (1, 1))
  = (Sample.fresh (1, 1), [[]; []], Some (HttpException "Headers not set.")) /\
  generate Sample.HOP_HEADERS Sample.REDIRECT_CODES Sample.Headers_bool
    Sample.handle_wsgi_error [Yield (Py.encode "hello")] [] (Sample.fresh (1, 1))
  = generate Sample.HOP_HEADERS Sample.REDIRECT_CODES Sample.Headers_bool
      Sample.handle_wsgi_error [Raise (HttpException "Headers not set.")] []
      (Sample.fresh (1, 1)).
Proof.
  destruct (response_without_status Sample.HOP_HEADERS Sample.REDIRECT_CODES
              Sample.Headers_bool Sample.handle_wsgi_error []
              (Sample.fresh (1, 1)) eq_refl eq_refl) as (A & B).
  split.
  - apply (A eq_refl 2).
  - apply (B "h"%byte (Py.encode "ello") []).
Defined.



(** A client that sends [Server] and [Date] headers of its own. *)
Lemma server_and_date_headers_witness :
  exists self' env,
    wsgi_environ Sample.HOP_HEADERS EmptyString Sample.server_address
      "pulsar" "Thu, 01 Jan 1970 00:00:00 GMT"
      (Sample.request (1, 1) [("Server", "mine"); ("Date", "yesterday")])
    = inr (self', env) /\
    Headers.get_all (Self.headers self') "Server" = ["pulsar"] /\
    Headers.get_all (Self.headers self') "Date"
    = ["Thu, 01 Jan 1970 00:00:00 GMT"].
Proof.
  assert (E : { p | wsgi_environ Sample.HOP_HEADERS EmptyString
                      Sample.server_address "pulsar"
                      "Thu, 01 Jan 1970 00:00:00 GMT"
                      (Sample.request (1, 1)
                         [("Server", "mine"); ("Date", "yesterday")])
                    = inr p }) by (eexists; vm_compute; reflexivity).
  destruct E as [[self' env] E]. exists self', env. split; [exact E |].
  exact (server_and_date_headers Sample.HOP_HEADERS EmptyString
           Sample.server_address "pulsar" "Thu, 01 Jan 1970 00:00:00 GMT"
           _ _ _ E).
Defined.

(** A forwarding chain of two hops. *)
Lemma remote_indexing_in_range_witness :
  2 <= length (remote (inl "10.1.1.1, 10.2.2.2")) /\
  length (Py.rsplit1 "," "10.1.1.1, 10.2.2.2") = 2.
Proof.
  split.
  - apply (proj1 remote_indexing_in_range).
  - apply (proj2 remote_indexing_in_range). reflexivity.
Defined.

(** A fragment of exactly [MAX_CHUNK_SIZE] bytes. *)
Lemma chunks_count_witness :
  chunks (repeat "A"%byte MAX_CHUNK_SIZE)
  = [chunk_encoding (repeat "A"%byte MAX_CHUNK_SIZE)].
Proof.
  apply (proj2 (chunks_count (repeat "A"%byte MAX_CHUNK_SIZE))).
  apply repeat_length.
Defined.

(** A handler whose second middleware answers, and one whose only
    middleware does not. *)
Lemma wsgi_handler_first_answer_witness :
  Handlers.call
    (Handlers.init (Some [Example.silent; Example.hello; Example.never])
       (Some ["etag"]))
    [("PATH_INFO", "/x")]
  = inr {| Handlers.body := "hello";
           Handlers.middleware_of := Some ["gzip"; "etag"] |} /\
  Handlers.call (Handlers.init (Some [Example.silent]) None) []
  = inl (Handlers.Http404 "/").
Proof.
  split.
  - exact (proj1 (wsgi_handler_first_answer
                    (Handlers.init
                       (Some [Example.silent; Example.hello; Example.never])
                       (Some ["etag"]))
                    [("PATH_INFO", "/x")])
             [Example.silent] Example.hello [Example.never]
             {| Handlers.body := "hello";
                Handlers.middleware_of := Some ["gzip"] |}
             eq_refl
             (Forall_cons _ eq_refl (Forall_nil _))
             eq_refl).
  - apply (proj1 (proj2 (wsgi_handler_first_answer
                           (Handlers.init (Some [Example.silent]) None) []))).
    constructor; [reflexivity | constructor].
Defined.

(** The path [blog/new] in the sample site. *)
Lemma resolve_sound_witness :
  In (Handlers.Node "blog/new" []) (Handlers.routers Example.site) /\
  Example.route_match "blog/new" "blog/new" = Some [].
Proof.
  destruct (resolve_sound string Example.route_match Example.site "blog/new"
              (Handlers.Node "blog/new" []) []) as (A & B & _).
  - vm_compute. reflexivity.
  - split; [exact A | exact B].
Defined.

(** The path [about] in the sample site: the first child does not resolve
    it, the second does. *)
Lemma resolve_order_witness :
  Handlers.resolve Example.route_match Example.site "about"
  = Some (Handlers.Node "about" [], []).
Proof.
  apply (proj1 (proj2 (proj2
           (resolve_order string Example.route_match EmptyString
              [Handlers.Node "blog/" [Handlers.Node "blog/new" []];
               Handlers.Node "about" []] "about")))
           [("__remaining__", "about")]
           [Handlers.Node "blog/" [Handlers.Node "blog/new" []]]
           (Handlers.Node "about" []) []
           (Handlers.Node "about" [], [])).
  - vm_compute. reflexivity.
  - reflexivity.
  - reflexivity.
  - constructor; [vm_compute; reflexivity | constructor].
  - vm_compute. reflexivity.
Defined.
